(** * Analista Quantitativo XG: validator, prompt renderer, gateway and route

    A shallow embedding of [app.py].  Python values are an inductive type,
    exceptions are an explicit error result, the logger and the external
    model call are events of a small writer monad, and the process-wide
    [analista_instance] is an explicit [option] argument of the route. *)

From Stdlib Require Import ZArith List String Ascii Bool Lia.
From Stdlib Require Import DecimalString.
From Stdlib Require Import Floats.SpecFloat.
Import ListNotations.
Local Open Scope string_scope.
Local Open Scope Z_scope.
Set Warnings "-register-all".

(** ** The Python runtime the program relies on

    [float()], [repr()] of a float and [repr()] of a [str] depend on the
    interpreter's IEEE-754 arithmetic and on its Unicode tables.  The
    program is written against this interface; [Binary64] further down is an
    executable instance. *)

Class PyRuntime := {
  pyfloat : Type;
  (** the value of a float literal [m * 10^e] of the source *)
  float_of_decimal : Z -> Z -> pyfloat;
  (** [float(s)] on a [str]; [None] when it raises [ValueError] *)
  float_of_str : string -> option pyfloat;
  (** [float(n)] on an [int]; [None] when it raises [OverflowError] *)
  float_of_int : Z -> option pyfloat;
  (** [bool(x)] on a float *)
  float_bool : pyfloat -> bool;
  (** [repr(x)] on a float *)
  float_repr : pyfloat -> string;
  (** how [json.dumps] writes a float *)
  float_json : pyfloat -> string;
  (** [repr(s)] on a [str] *)
  str_repr : string -> string
}.

(** ** Exceptions and fallible computations *)

Record excecao := Excecao {
  exc_classe : string;          (* type(e).__name__ *)
  exc_value_error : bool;       (* isinstance(e, ValueError) *)
  exc_str : string              (* str(e) *)
}.

Definition ValueError (msg : string) : excecao := Excecao "ValueError" true msg.
Definition TypeError (msg : string) : excecao := Excecao "TypeError" false msg.
Definition AttributeError (msg : string) : excecao := Excecao "AttributeError" false msg.
Definition KeyError (msg : string) : excecao := Excecao "KeyError" false msg.
Definition OverflowError (msg : string) : excecao := Excecao "OverflowError" false msg.

Inductive result (A : Type) : Type :=
| Ok (a : A)
| Raise (e : excecao).
Arguments Ok {A} a.
Arguments Raise {A} e.

Definition rbind {A B} (m : result A) (k : A -> result B) : result B :=
  match m with
  | Ok a => k a
  | Raise e => Raise e
  end.

Declare Scope result_scope.
Delimit Scope result_scope with result.
Notation "x <- m ;; k" := (rbind m (fun x => k))
  (at level 61, m at next level, right associativity) : result_scope.

(** ** Logger lines and the external call as events *)

Inductive evento :=
| LogInfo (linha : string)
| LogError (linha : string)
| GenerateContent (prompt : string)
| Stdout (linha : string).

(** A computation that emits events and then returns or raises. *)
Definition M (A : Type) : Type := (list evento * result A)%type.

Definition ret {A} (a : A) : M A := ([], Ok a).
Definition emit (e : evento) : M unit := ([e], Ok tt).
Definition lift {A} (r : result A) : M A := ([], r).

Definition bind {A B} (m : M A) (k : A -> M B) : M B :=
  match m with
  | (l, Ok a) => let '(l', r) := k a in ((l ++ l')%list, r)
  | (l, Raise e) => (l, Raise e)
  end.

(** [try: m  except Exception as e: h e] *)
Definition try_except {A} (m : M A) (h : excecao -> M A) : M A :=
  match m with
  | (l, Ok a) => (l, Ok a)
  | (l, Raise e) => let '(l', r) := h e in ((l ++ l')%list, r)
  end.

Declare Scope m_scope.
Delimit Scope m_scope with M.
Notation "x <- m ;; k" := (bind m (fun x => k))
  (at level 61, m at next level, right associativity) : m_scope.
Notation "m ;;; k" := (bind m (fun _ => k))
  (at level 61, right associativity) : m_scope.

Definition eventos {A} (m : M A) : list evento := fst m.
Definition desfecho {A} (m : M A) : result A := snd m.

Section Programa.
Context {RT : PyRuntime}.

(** ** Python values (what [request.get_json()] and the program build) *)

Inductive pyval :=
| PNone
| PBool (b : bool)
| PInt (n : Z)
| PFloat (x : pyfloat)
| PStr (s : string)
| PList (l : list pyval)
| PDict (d : list (string * pyval)).

(** A [dict] is its items in insertion order; only string keys occur. *)
Definition pydict := list (string * pyval).

Fixpoint dict_lookup (d : pydict) (k : string) : option pyval :=
  match d with
  | [] => None
  | (k', v) :: d' => if String.eqb k' k then Some v else dict_lookup d' k
  end.

(** [bool(v)] *)
Definition truthy (v : pyval) : bool :=
  match v with
  | PNone => false
  | PBool b => b
  | PInt n => negb (n =? 0)
  | PFloat x => float_bool x
  | PStr s => negb (String.eqb s EmptyString)
  | PList l => match l with [] => false | _ => true end
  | PDict d => match d with [] => false | _ => true end
  end.

Definition type_name (v : pyval) : string :=
  match v with
  | PNone => "NoneType"
  | PBool _ => "bool"
  | PInt _ => "int"
  | PFloat _ => "float"
  | PStr _ => "str"
  | PList _ => "list"
  | PDict _ => "dict"
  end.

Definition no_attribute (v : pyval) (attr : string) : excecao :=
  AttributeError ("'" ++ type_name v ++ "' object has no attribute '" ++ attr ++ "'").

(** [o.get(k, default)] *)
Definition py_get_default (o : pyval) (k : string) (default : pyval) : result pyval :=
  match o with
  | PDict d => Ok (match dict_lookup d k with Some v => v | None => default end)
  | _ => Raise (no_attribute o "get")
  end.

(** [o.get(k)] *)
Definition py_get (o : pyval) (k : string) : result pyval :=
  py_get_default o k PNone.

(** [o[k]] with a string key *)
Definition py_getitem (o : pyval) (k : string) : result pyval :=
  match o with
  | PDict d =>
      match dict_lookup d k with
      | Some v => Ok v
      | None => Raise (KeyError (str_repr k))
      end
  | PStr _ => Raise (TypeError "string indices must be integers, not 'str'")
  | PList _ => Raise (TypeError "list indices must be integers or slices, not str")
  | _ => Raise (TypeError ("'" ++ type_name o ++ "' object is not subscriptable"))
  end.

(** [float(v)] *)
Definition py_float (v : pyval) : result pyfloat :=
  match v with
  | PStr s =>
      match float_of_str s with
      | Some x => Ok x
      | None => Raise (ValueError ("could not convert string to float: " ++ str_repr s))
      end
  | PInt n =>
      match float_of_int n with
      | Some x => Ok x
      | None => Raise (OverflowError "int too large to convert to float")
      end
  | PBool b =>
      match float_of_int (if b then 1 else 0) with
      | Some x => Ok x
      | None => Raise (OverflowError "int too large to convert to float")
      end
  | PFloat x => Ok x
  | _ => Raise (TypeError ("float() argument must be a string or a real number, not '"
                           ++ type_name v ++ "'"))
  end.

Definition join (sep : string) (l : list string) : string := String.concat sep l.

Definition int_str (n : Z) : string := NilZero.string_of_int (Z.to_int n).

(** [repr(v)] *)
Fixpoint py_repr (v : pyval) : string :=
  match v with
  | PNone => "None"
  | PBool b => if b then "True" else "False"
  | PInt n => int_str n
  | PFloat x => float_repr x
  | PStr s => str_repr s
  | PList l => "[" ++ join ", " (map py_repr l) ++ "]"
  | PDict d =>
      "{" ++ join ", " (map (fun kv => str_repr (fst kv) ++ ": " ++ py_repr (snd kv)) d) ++ "}"
  end.

(** [str(v)], which is what an f-string field [{v}] renders *)
Definition py_str (v : pyval) : string :=
  match v with
  | PStr s => s
  | _ => py_repr v
  end.


(** ** Text helpers *)

Definition nl : string := String (ascii_of_nat 10) EmptyString.
Definition aspas : string := String (ascii_of_nat 34) EmptyString.

(** The lines of a text, joined by newlines. *)
Definition linhas (l : list string) : string := join nl l.

Fixpoint repete (n : nat) (s : string) : string :=
  match n with
  | O => EmptyString
  | S n' => s ++ repete n' s
  end.

(** [s.zfill(n)] on a string of digits *)
Definition zfill (n : nat) (s : string) : string :=
  repete (n - String.length s) "0" ++ s.

(** ** [datetime] (naive, as [datetime.now()] returns it) *)

Record datetime := {
  year : Z; month : Z; day : Z;
  hour : Z; minute : Z; second : Z; microsecond : Z
}.

Definition isoformat (t : datetime) : string :=
  zfill 4 (int_str (year t)) ++ "-" ++ zfill 2 (int_str (month t)) ++ "-"
  ++ zfill 2 (int_str (day t)) ++ "T" ++ zfill 2 (int_str (hour t)) ++ ":"
  ++ zfill 2 (int_str (minute t)) ++ ":" ++ zfill 2 (int_str (second t))
  ++ (if microsecond t =? 0 then EmptyString
      else "." ++ zfill 6 (int_str (microsecond t))).

(** ** [json.dumps(v, indent=2, ensure_ascii=False)] *)

Definition hex_digit (n : nat) : ascii :=
  match n with
  | 0 => "0" | 1 => "1" | 2 => "2" | 3 => "3" | 4 => "4" | 5 => "5" | 6 => "6"
  | 7 => "7" | 8 => "8" | 9 => "9" | 10 => "a" | 11 => "b" | 12 => "c"
  | 13 => "d" | 14 => "e" | _ => "f"
  end%char%nat.

Definition json_escape_char (c : ascii) : string :=
  let n := nat_of_ascii c in
  if (n =? 34)%nat then "\" ++ aspas
  else if (n =? 92)%nat then "\\"
  else if (n =? 8)%nat then "\b"
  else if (n =? 12)%nat then "\f"
  else if (n =? 10)%nat then "\n"
  else if (n =? 13)%nat then "\r"
  else if (n =? 9)%nat then "\t"
  else if (n <? 32)%nat then
    "\u00" ++ String (hex_digit (n / 16)) (String (hex_digit (n mod 16)) EmptyString)
  else String c EmptyString.

Fixpoint json_escape (s : string) : string :=
  match s with
  | EmptyString => EmptyString
  | String c s' => json_escape_char c ++ json_escape s'
  end.

Definition json_str (s : string) : string := aspas ++ json_escape s ++ aspas.

Fixpoint json_dumps_nivel (nivel : nat) (v : pyval) : string :=
  let dentro := nl ++ repete (S nivel) "  " in
  let fora := nl ++ repete nivel "  " in
  match v with
  | PNone => "null"
  | PBool b => if b then "true" else "false"
  | PInt n => int_str n
  | PFloat x => float_json x
  | PStr s => json_str s
  | PList l =>
      match l with
      | [] => "[]"
      | _ => "[" ++ dentro
             ++ join ("," ++ dentro) (map (json_dumps_nivel (S nivel)) l)
             ++ fora ++ "]"
      end
  | PDict d =>
      match d with
      | [] => "{}"
      | _ => "{" ++ dentro
             ++ join ("," ++ dentro)
                  (map (fun kv => json_str (fst kv) ++ ": "
                                    ++ json_dumps_nivel (S nivel) (snd kv)) d)
             ++ fora ++ "}"
      end
  end.

Definition json_dumps (v : pyval) : string := json_dumps_nivel 0 v.

(** ** The data model *)

(** [@dataclass ConsultaAposta]; the annotations are not enforced at run
    time, so the fields hold whatever the validator puts there. *)
Record ConsultaAposta := {
  liga : pyval;
  time_casa : pyval;
  time_fora : pyval;
  odds_1x2 : pyval;
  odds_over_under : pyval;
  odds_btts : pyval;
  contexto_adicional : pyval;
  timestamp : datetime
}.

(** The generated [__init__] followed by [__post_init__]: a missing
    timestamp becomes [datetime.now()], here the clock reading [agora]. *)
Definition novo_ConsultaAposta (agora : datetime)
    (liga time_casa time_fora odds_1x2 odds_over_under odds_btts
       contexto_adicional : pyval)
    (timestamp : option datetime) : ConsultaAposta :=
  {| liga := liga; time_casa := time_casa; time_fora := time_fora;
     odds_1x2 := odds_1x2; odds_over_under := odds_over_under;
     odds_btts := odds_btts; contexto_adicional := contexto_adicional;
     timestamp := match timestamp with Some t => t | None => agora end |}.

(** [class TipoMercado(Enum)]; the program declares it and never uses it. *)
Inductive TipoMercado := RESULTADO_1X2 | OVER_UNDER | BTTS | AMBOS_MARCAM.

Definition TipoMercado_value (t : TipoMercado) : string :=
  match t with
  | RESULTADO_1X2 => "1x2"
  | OVER_UNDER => "over_under"
  | BTTS => "btts"
  | AMBOS_MARCAM => "ambos_cam"
  end.

(** What [response.text] and [response.prompt_feedback] give on the object
    that [generate_content] returned. *)
Record resposta_gemini := {
  text : result string;
  prompt_feedback : string
}.

(** [genai.GenerativeModel]: one call, which answers or raises. *)
Record cliente := {
  model_name : string;
  generate_content : string -> result resposta_gemini
}.

Record AnalistaQuantitativoXG := {
  api_key : string;
  generation_config : pyval;
  safety_settings : pyval;
  client : cliente;
  base_conhecimento : pyval
}.

(** ** [_carregar_base_conhecimento] *)

Definition _carregar_base_conhecimento : pyval :=
  PDict [
    ("fontes_dados_prioridade", PDict [
       ("P1_XG_Foundation", PList [
          PStr "UnderStat (https://understat.com)";
          PStr "FBref (https://fbref.com/en/)";
          PStr "XGScore (https://xgscore.io/xg-statistics)"]);
       ("P2_Market_Value", PList [
          PStr "OddsAlerts (https://oddalerts.com/xg)";
          PStr "@oddsnotifierbr"]);
       ("P3_Context_History", PList [
          PStr "FootyStats (https://footystats.org/stats/xg)";
          PStr "windrawwin (https://windrawwin.com)";
          PStr "Soccer Stats (https://soccerstats.com)"]);
       ("P4_Live_Context", PList [
          PStr "FotMob (https://fotmob.com/pt-BR)";
          PStr "SofascoreBR (https://sofascore.com)";
          PStr "FlashscoreBR (https://flashscore.com.br)"])]);
    ("metricas_fundamentais", PDict [
       ("XG", PStr "Expected Goals - Métrica de criação de chances ofensivas");
       ("XGC", PStr "Expected Goals Conceded - Chances concedidas defensivamente");
       ("XGD", PStr "XG Difference - Diferencial (XG a favor - XG contra)");
       ("XA", PStr "Expected Assists - Assistências esperadas");
       ("XPts", PStr "Expected Points - Pontos que a equipe 'merecia' ganhar")]);
    ("modelo_preditivo", PDict [
       ("base", PStr "Modelo de Poisson Bivariado");
       ("input_primario", PStr "XG/XGC médio últimas 10 partidas");
       ("ajustes", PList [PStr "Fator casa/fora"; PStr "Força da liga";
                          PStr "Lesões/Suspensões"; PStr "Sharp Money"])]);
    ("thresholds_decisao", PDict [
       ("ev_minimo", PFloat (float_of_decimal 2 (-2)));
       ("stake_maximo", PFloat (float_of_decimal 2 (-2)));
       ("discrepancia_xg_maxima", PFloat (float_of_decimal 15 (-2)));
       ("kelly_fraction", PFloat (float_of_decimal 5 (-1)))])
  ].

(** ** [_formatar_odds] *)

(** [{d.get(k, 'N/A')}] inside an f-string *)
Definition campo (d : pyval) (k : string) : result string :=
  (v <- py_get_default d k (PStr "N/A") ;; Ok (py_str v))%result.

(** [if cond: odds_texto.append(linha)] *)
Definition append_se (cond : pyval) (linha : result string)
    (odds_texto : list string) : result (list string) :=
  if truthy cond then (l <- linha ;; Ok (odds_texto ++ [l])%list)%result
  else Ok odds_texto.

Definition _formatar_odds (consulta : ConsultaAposta) : result string :=
  (let odds_texto := [] in
   odds_texto <- append_se (odds_1x2 consulta)
     (casa <- campo (odds_1x2 consulta) "casa" ;;
      empate <- campo (odds_1x2 consulta) "empate" ;;
      fora <- campo (odds_1x2 consulta) "fora" ;;
      Ok ("  • 1X2: Casa " ++ casa ++ " | Empate " ++ empate ++ " | Fora " ++ fora))
     odds_texto ;;
   odds_texto <- append_se (odds_over_under consulta)
     (over <- campo (odds_over_under consulta) "over" ;;
      under <- campo (odds_over_under consulta) "under" ;;
      Ok ("  • Over/Under 2.5: Over " ++ over ++ " | Under " ++ under))
     odds_texto ;;
   odds_texto <- append_se (odds_btts consulta)
     (sim <- campo (odds_btts consulta) "sim" ;;
      nao <- campo (odds_btts consulta) "nao" ;;
      Ok ("  • BTTS: Sim " ++ sim ++ " | Não " ++ nao))
     odds_texto ;;
   Ok (match odds_texto with
       | [] => "  • Odds não fornecidas"
       | _ => join nl odds_texto
       end))%result.

(** ** [__init__], [criar_analista_instance] and start-up *)

(** The two entry points of [google.generativeai] the constructor uses. *)
Record genai_sdk := {
  configure : string -> result unit;
  GenerativeModel : string -> string -> pyval -> pyval -> result cliente
}.

Definition system_instruction : string :=
  "Você é o " ++ aspas ++ "Alpha Quant Analyst" ++ aspas
  ++ ", um especialista em modelagem preditiva de Nível 5 para futebol, com foco absoluto em Expected Goals (XG), Expected Assists (XA) e Expected Points (XPts). Seu objetivo é analisar partidas e identificar, de forma cética e rigorosa, apenas Value Bets com Valor Esperado Positivo ($EV > 2\%$). Seu tom é técnico, objetivo e livre de emoções. Você não fornece previsões baseadas em "
  ++ aspas ++ "feeling" ++ aspas ++ " ou estatísticas rasas.".

(** [_configurar_logging] only installs the logger, whose lines are the
    [LogInfo] and [LogError] events. *)
Definition AnalistaQuantitativoXG_init (genai : genai_sdk) (api_key : string)
    : M AnalistaQuantitativoXG :=
  (try_except (lift (configure genai api_key))
     (fun e =>
        emit (Stdout ("Erro ao configurar a API do Gemini: " ++ exc_str e)) ;;;
        lift (Raise e)) ;;;
   let generation_config := PDict [
     ("temperature", PFloat (float_of_decimal 1 (-1)));
     ("max_output_tokens", PInt 2048)] in
   let safety_settings := PList [
     PDict [("category", PStr "HARM_CATEGORY_HARASSMENT"); ("threshold", PStr "BLOCK_NONE")];
     PDict [("category", PStr "HARM_CATEGORY_HATE_SPEECH"); ("threshold", PStr "BLOCK_NONE")];
     PDict [("category", PStr "HARM_CATEGORY_SEXUALLY_EXPLICIT"); ("threshold", PStr "BLOCK_NONE")];
     PDict [("category", PStr "HARM_CATEGORY_DANGEROUS_CONTENT"); ("threshold", PStr "BLOCK_NONE")]] in
   client <- lift (GenerativeModel genai "gemini-1.5-pro-latest" system_instruction
                     generation_config safety_settings) ;;
   ret {| api_key := api_key;
          generation_config := generation_config;
          safety_settings := safety_settings;
          client := client;
          base_conhecimento := _carregar_base_conhecimento |})%M.

Definition criar_analista_instance (genai : genai_sdk) (api_key : string)
    : M AnalistaQuantitativoXG :=
  (analista <- AnalistaQuantitativoXG_init genai api_key ;;
   emit (Stdout "✅ Analista Quantitativo XG (Gemini) inicializado com sucesso!") ;;;
   ret analista)%M.

(** The [__main__] block up to [app.run]: the value of the global
    [analista_instance] it leaves behind, given [os.getenv("GOOGLE_API_KEY")]. *)
Definition main (genai : genai_sdk) (GOOGLE_API_KEY : option string)
    : M (option AnalistaQuantitativoXG) :=
  let ausente :=
    match GOOGLE_API_KEY with
    | None => true
    | Some k => String.eqb k EmptyString || String.eqb k "SUA_CHAVE_API_DO_GEMINI_AQUI"
    end in
  if ausente then
    (emit (Stdout "❌ ERRO CRÍTICO: Chave da API 'GOOGLE_API_KEY' não configurada no arquivo .env.") ;;;
     emit (Stdout "Por favor, crie um arquivo .env e adicione sua chave (obtida no Google AI Studio).") ;;;
     ret None)%M
  else
    try_except
      (analista <- criar_analista_instance genai
                     (match GOOGLE_API_KEY with Some k => k | None => EmptyString end) ;;
       emit (Stdout "===================================================================") ;;;
       emit (Stdout "🚀 Servidor Alpha Quant Analyst (GEMINI) iniciado localmente.") ;;;
       emit (Stdout "Acesse a interface no seu navegador:") ;;;
       emit (Stdout "   👉 http://127.0.0.1:5000") ;;;
       emit (Stdout "===================================================================") ;;;
       ret (Some analista))%M
      (fun e => (emit (Stdout ("❌ FALHA na inicialização: " ++ exc_str e)) ;;; ret None)%M).

(** ** [_gerar_prompt_especializado] *)

(** [self.base_conhecimento["fontes_dados_prioridade"][k]] *)
Definition fontes (self : AnalistaQuantitativoXG) (k : string) : result pyval :=
  (f <- py_getitem (base_conhecimento self) "fontes_dados_prioridade" ;;
   py_getitem f k)%result.

(** The risk notice that the template orders the model to end with. *)
Definition AVISO_DE_RISCO : string :=
  "⚠️ AVISO DE RISCO: A análise de IA não garante lucro. Apostas esportivas envolvem risco significativo de perda financeira. Jogue com responsabilidade e use apenas fundos que você pode perder. Procure ajuda se o jogo se tornar problemático.".

Definition _gerar_prompt_especializado (self : AnalistaQuantitativoXG)
    (consulta : ConsultaAposta) : result string :=
  (odds_formatadas <- _formatar_odds consulta ;;
   p1 <- fontes self "P1_XG_Foundation" ;;
   p2 <- fontes self "P2_Market_Value" ;;
   p3 <- fontes self "P3_Context_History" ;;
   p4 <- fontes self "P4_Live_Context" ;;
   thresholds <- py_getitem (base_conhecimento self) "thresholds_decisao" ;;
   Ok (linhas [
       "#METHODOLOGY_CONSTRAINT";
       "- Modelo Preditivo: A probabilidade real ($P_c$) de resultados (1X2, O/U 2.5, BTTS) deve ser calculada usando os dados XG/XA de 10 jogos como inputs primários para um Modelo de Poisson Bivariado ou similar. Gols Reais (G) são usados apenas para avaliar a variância de finalização, não como preditor primário.";
       "- Cálculo de Valor: O Valor Esperado ($EV$) é MANDATÓRIO e deve ser calculado pela fórmula $EV = (P_c \times Odds) - 1$.";
       EmptyString;
       "#KNOWLEDGE_BASE_RAG_INSTRUCTION";
       "Sua base de dados para análise é a simulação RAG das seguintes URLs. Você deve priorizar a coleta e a coerência dos dados conforme a hierarquia (P1, P2, P3, P4):";
       EmptyString;
       "P1 (XG Foundation - Prioridade Máxima):";
       json_dumps p1;
       EmptyString;
       "P2 (Market Value & Movement):";
       json_dumps p2;
       EmptyString;
       "P3 (Context & History):";
       json_dumps p3;
       EmptyString;
       "P4 (Live Context & Human Factor):";
       json_dumps p4;
       EmptyString;
       "#DATA_INPUT_TEMPLATE";
       "- Liga/Campeonato: " ++ py_str (liga consulta);
       "- Partida: " ++ py_str (time_casa consulta) ++ " vs " ++ py_str (time_fora consulta);
       "- Odds de Mercado:";
       odds_formatadas;
       (if truthy (contexto_adicional consulta)
        then "- Contexto Adicional: " ++ py_str (contexto_adicional consulta)
        else EmptyString);
       EmptyString;
       "#CHAIN_OF_THOUGHT_PROTOCOL";
       "Você deve executar a análise em 5 passos CoT sequenciais. A resposta deve apresentar os resultados de cada passo de forma transparente e estruturada.";
       EmptyString;
       "<COT_STEP_1: Coleta e Power Rating XG>";
       "Recupere e normalize o XG, XGD, XA e XPts dos últimos 10 jogos para "
         ++ py_str (time_casa consulta) ++ " e " ++ py_str (time_fora consulta)
         ++ " (fontes P1). Calcule o Power Rating bruto, ajustando o XG pela média da liga e fator casa/fora.";
       EmptyString;
       "IMPORTANTE: Como você está simulando o acesso às URLs, forneça estimativas razoáveis baseadas no contexto da liga e dos times, deixando claro que são simulações. Cite as fontes que você " ++ aspas ++ "consultaria" ++ aspas ++ " (P1).";
       EmptyString;
       "<COT_STEP_2: Ajuste Contextual e Sharp Money>";
       "Verifique Notícias de Lesões/Suspensões (P4) e a Movimentação de Odds (P2). Se um jogador-chave estiver ausente, aplique um fator de penalidade ao XG ajustado. Se as odds mudaram significativamente sem notícias óbvias, sinalize potencial Sharp Money e ajuste a $P_c$ em até 5%.";
       EmptyString;
       "SIMULAÇÃO: Indique possíveis fatores contextuais relevantes para esta partida específica.";
       EmptyString;
       "<COT_STEP_3: Cálculo da Probabilidade Real ($P_c$)>";
       "Utilize o Power Rating XG ajustado (com base no Poisson) para calcular $P_c$ para os mercados 1X2, Over/Under 2.5 e BTTS.";
       EmptyString;
       "FÓRMULA: Apresente os cálculos de forma transparente, mostrando como chegou aos valores de $P_c$.";
       EmptyString;
       "<COT_STEP_4: Detecção de Valor Esperado (+EV) e Coerência>";
       "Compare $P_c$ com $P_o$ (Probabilidade Implícita das Odds) para calcular o $EV$ de todos os mercados disponíveis.";
       EmptyString;
       "FÓRMULA OBRIGATÓRIA: $EV = (P_c \times Odds) - 1$";
       EmptyString;
       "Liste os 3 principais mercados onde $EV > 2\%$. ";
       EmptyString;
       "Valide a coerência dos dados:";
       "- Se houver discrepância de XG > 15% entre fontes P1, sinalize o risco";
       "- Se $XPts$ da equipe favorita for consistentemente baixo, reduza a confiança na $P_c$";
       "- Se todos os $EV < 0$, declare " ++ aspas ++ "No Value Found" ++ aspas;
       EmptyString;
       "<COT_STEP_5: Decisão e Gerenciamento de Stake>";
       "Selecione o mercado de maior +EV com menor desvio padrão/variância de XG.";
       EmptyString;
       "Calcule o Stake (tamanho da aposta) utilizando a fórmula de Kelly Criterion (Half Kelly):";
       "$Stake (\% B) = EV / (Odd - 1)$";
       EmptyString;
       "RESTRIÇÃO: O Stake Máximo permitido é 2% da banca, independentemente do resultado da fórmula.";
       EmptyString;
       "Apresente a Justificativa Final com:";
       "- Mercado Recomendado";
       "- Odd";
       "- EV calculado";
       "- Stake sugerido (% da banca)";
       "- Nível de Confiança (Alto/Médio/Baixo)";
       EmptyString;
       "#ETHICAL_COMPLIANCE_MANDATORY";
       "O último parágrafo da sua resposta DEVE ser o aviso de risco obrigatório:";
       EmptyString;
       AVISO_DE_RISCO;
       EmptyString;
       "THRESHOLDS DE DECISÃO:";
       json_dumps thresholds;
       EmptyString;
       "AGORA, INICIE A ANÁLISE SEGUINDO RIGOROSAMENTE OS 5 PASSOS CoT:";
       EmptyString ]))%result.

(** ** [processar_consulta] *)

Definition payload_erro (mensagem detalhes : string) : pyval :=
  PDict [("erro", PBool true); ("mensagem", PStr mensagem); ("detalhes", PStr detalhes)].

Definition METODOLOGIA : string :=
  "Chain-of-Thought (5 passos) + Modelo Poisson + Kelly Criterion".
Definition DISCLAIMER : string :=
  "⚠️ Análise de IA não garante lucro. Apostas envolvem risco de perda financeira.".

Definition MSG_BLOQUEADA : string :=
  "A resposta foi bloqueada pela política de segurança do Gemini.".
Definition MSG_EXTRACAO : string :=
  "Erro ao extrair texto da resposta do Gemini.".
Definition MSG_INTERNO : string :=
  "Erro interno ao processar análise quantitativa".

(** [self.client.generate_content(prompt)]: the one external call. *)
Definition chamar (c : cliente) (prompt : string) : M resposta_gemini :=
  (emit (GenerateContent prompt) ;;; lift (generate_content c prompt))%M.

Definition processar_consulta (self : AnalistaQuantitativoXG)
    (consulta : ConsultaAposta) : M pyval :=
  try_except
    (emit (LogInfo ("Processando análise: " ++ py_str (time_casa consulta)
                    ++ " vs " ++ py_str (time_fora consulta))) ;;;
     prompt <- lift (_gerar_prompt_especializado self consulta) ;;
     response <- chamar (client self) prompt ;;
     (* the inner try: [inl] is a [return] from one of its handlers *)
     extraido <-
       try_except
         (analise_completa <- lift (text response) ;; ret (inr analise_completa))
         (fun e =>
            if exc_value_error e then
              emit (LogError ("Resposta bloqueada pelo Gemini: " ++ exc_str e)) ;;;
              emit (LogError ("Detalhes do bloqueio: " ++ prompt_feedback response)) ;;;
              ret (inl (payload_erro MSG_BLOQUEADA
                          ("Feedback do Prompt: " ++ prompt_feedback response)))
            else
              emit (LogError ("Erro ao extrair texto da resposta: " ++ exc_str e)) ;;;
              ret (inl (payload_erro MSG_EXTRACAO (exc_str e)))) ;;
     match extraido with
     | inl erro => ret erro
     | inr analise_completa =>
         let resultado := PDict [
           ("analise_completa", PStr analise_completa);
           ("partida", PStr (py_str (time_casa consulta) ++ " vs "
                             ++ py_str (time_fora consulta)));
           ("liga", liga consulta);
           ("odds_fornecidas", PDict [
              ("1x2", odds_1x2 consulta);
              ("over_under", odds_over_under consulta);
              ("btts", odds_btts consulta)]);
           ("timestamp", PStr (isoformat (timestamp consulta)));
           ("modelo_usado", PStr (model_name (client self) ++ " (Google AI)"));
           ("metodologia", PStr METODOLOGIA);
           ("disclaimer", PStr DISCLAIMER)] in
         emit (LogInfo "Análise processada com sucesso") ;;;
         ret resultado
     end)%M
    (fun e =>
       (emit (LogError ("Erro ao processar análise: " ++ exc_str e)) ;;;
        ret (payload_erro MSG_INTERNO (exc_str e)))%M).

(** ** [validar_contexto_consulta] *)

(** [a or b], with [b] evaluated only when [a] is falsy *)
Definition py_or (a b : result pyval) : result pyval :=
  (x <- a ;; if truthy x then Ok x else b)%result.

(** [float(dados.get(k, 0)) if dados.get(k) else None] *)
Definition odd (dados : pyval) (k : string) : result pyval :=
  (c <- py_get dados k ;;
   if truthy c then
     v <- py_get_default dados k (PInt 0) ;;
     x <- py_float v ;;
     Ok (PFloat x)
   else Ok PNone)%result.

(** [if not dados.get(k): raise ValueError(msg)] *)
Definition obrigatorio (dados : pyval) (k msg : string) : result unit :=
  (v <- py_get dados k ;;
   if negb (truthy v) then Raise (ValueError msg) else Ok tt)%result.

Definition validar_contexto_consulta (agora : datetime) (dados : pyval)
    : result ConsultaAposta :=
  (_ <- obrigatorio dados "liga" "Liga/Campeonato é obrigatório" ;;
   _ <- obrigatorio dados "time_casa" "Time da casa é obrigatório" ;;
   _ <- obrigatorio dados "time_fora" "Time visitante é obrigatório" ;;
   (* Processa odds 1X2 *)
   c <- py_or (py_get dados "odd_casa")
          (py_or (py_get dados "odd_empate") (py_get dados "odd_fora")) ;;
   odds_1x2 <-
     (if truthy c then
        casa <- odd dados "odd_casa" ;;
        empate <- odd dados "odd_empate" ;;
        fora <- odd dados "odd_fora" ;;
        Ok (PDict [("casa", casa); ("empate", empate); ("fora", fora)])
      else Ok PNone) ;;
   (* Processa odds Over/Under *)
   c <- py_or (py_get dados "odd_over") (py_get dados "odd_under") ;;
   odds_over_under <-
     (if truthy c then
        over <- odd dados "odd_over" ;;
        under <- odd dados "odd_under" ;;
        Ok (PDict [("over", over); ("under", under)])
      else Ok PNone) ;;
   (* Processa odds BTTS *)
   c <- py_or (py_get dados "odd_btts_sim") (py_get dados "odd_btts_nao") ;;
   odds_btts <-
     (if truthy c then
        sim <- odd dados "odd_btts_sim" ;;
        nao <- odd dados "odd_btts_nao" ;;
        Ok (PDict [("sim", sim); ("nao", nao)])
      else Ok PNone) ;;
   liga <- py_getitem dados "liga" ;;
   time_casa <- py_getitem dados "time_casa" ;;
   time_fora <- py_getitem dados "time_fora" ;;
   contexto_adicional <- py_get dados "contexto_adicional" ;;
   Ok (novo_ConsultaAposta agora liga time_casa time_fora
         odds_1x2 odds_over_under odds_btts contexto_adicional None))%result.

(** ** The route [POST /analisar_aposta] *)

(** What [request.get_json()] does on the incoming request: it returns the
    parsed body, or raises one of werkzeug's HTTP exceptions ([BadRequest],
    [UnsupportedMediaType]), none of which is a [ValueError]. *)
Inductive requisicao :=
| CorpoJson (dados : pyval)
| CorpoRecusado (classe mensagem : string).

Definition get_json (request : requisicao) : result pyval :=
  match request with
  | CorpoJson dados => Ok dados
  | CorpoRecusado classe mensagem => Raise (Excecao classe false mensagem)
  end.

(** A Flask response: the value given to [jsonify] and the status code. *)
Definition resposta := (pyval * Z)%type.

Definition MSG_NAO_INICIALIZADO : string := "Analista não inicializado".
Definition DET_NAO_INICIALIZADO : string :=
  "A chave da API pode estar faltando ou o Analista não foi criado na inicialização.".
Definition MSG_INVALIDOS : string := "Dados de entrada inválidos".
Definition MSG_SERVIDOR : string := "Erro interno do servidor".

Definition analisar_aposta (analista_instance : option AnalistaQuantitativoXG)
    (agora : datetime) (request : requisicao) : M resposta :=
  match analista_instance with
  | None => ret (payload_erro MSG_NAO_INICIALIZADO DET_NAO_INICIALIZADO, 500)
  | Some analista =>
      try_except
        (dados <- lift (get_json request) ;;
         consulta <- lift (validar_contexto_consulta agora dados) ;;
         resultado_analise <- processar_consulta analista consulta ;;
         ret (resultado_analise, 200))%M
        (fun e =>
           if exc_value_error e then
             (emit (LogError ("Erro de validação: " ++ exc_str e)) ;;;
              ret (payload_erro MSG_INVALIDOS (exc_str e), 400))%M
           else
             (emit (LogError ("Erro inesperado na rota: " ++ exc_str e)) ;;;
              ret (payload_erro MSG_SERVIDOR (exc_str e), 500))%M)
  end.

End Programa.

(** ** An executable runtime: IEEE-754 binary64 over ASCII text

    Floats are [spec_float] values in canonical form (53-bit mantissa,
    exponent between -1074 and 971).  Reading and writing follow CPython on
    ASCII text; the Unicode decimal digits and spaces that CPython also
    accepts in [float()], and its table of non-printable code points in
    [repr()], are not part of this instance. *)

Module Binary64.

(** The nearest binary64 to [(-1)^s * n / d] for [n, d > 0], ties to even;
    an infinity when the rounded value is out of range. *)
Definition arredonda (s : bool) (n d : Z) : spec_float :=
  let l := Z.log2 n - Z.log2 d in
  let l := if (if 0 <=? l then d * 2 ^ l <=? n else d <=? n * 2 ^ (- l)) then l else l - 1 in
  let e := Z.max (l - 52) (-1074) in
  let num := if 0 <=? e then n else n * 2 ^ (- e) in
  let den := if 0 <=? e then d * 2 ^ e else d in
  let q := num / den in
  let r := num mod den in
  let q := if (den <? 2 * r) || ((den =? 2 * r) && Z.odd q) then q + 1 else q in
  let '(q, e) := if q =? 2 ^ 53 then (2 ^ 52, e + 1) else (q, e) in
  match q with
  | Zpos m => if 971 <? e then S754_infinity s else S754_finite s m e
  | _ => S754_zero s
  end.

Definition of_decimal (s : bool) (m e : Z) : spec_float :=
  if m =? 0 then S754_zero s
  else if 0 <=? e then arredonda s (m * 10 ^ e) 1
  else arredonda s m (10 ^ (- e)).

Definition float_of_decimal (m e : Z) : spec_float :=
  of_decimal (m <? 0) (Z.abs m) e.

Definition float_of_int (n : Z) : option spec_float :=
  match float_of_decimal n 0 with
  | S754_infinity _ => None
  | x => Some x
  end.

Definition float_bool (x : spec_float) : bool :=
  match x with
  | S754_zero _ => false
  | _ => true
  end.

(** *** Reading a float: the ASCII grammar of [float(str)] *)

Definition is_space (c : ascii) : bool :=
  let n := nat_of_ascii c in ((n =? 32) || ((9 <=? n) && (n <=? 13)))%nat.

Definition is_digit (c : ascii) : bool :=
  let n := nat_of_ascii c in ((48 <=? n) && (n <=? 57))%nat.

Definition digit_val (c : ascii) : Z := Z.of_nat (nat_of_ascii c) - 48.

Definition lower (c : ascii) : ascii :=
  let n := nat_of_ascii c in
  if ((65 <=? n) && (n <=? 90))%nat then ascii_of_nat (n + 32) else c.

Fixpoint lstrip (l : list ascii) : list ascii :=
  match l with
  | c :: l' => if is_space c then lstrip l' else l
  | [] => []
  end.

Definition strip (l : list ascii) : list ascii := rev (lstrip (rev (lstrip l))).

(** Underscores may only stand between two digits; they are dropped. *)
Fixpoint sem_underscores (prev : ascii) (l : list ascii) : option (list ascii) :=
  match l with
  | [] => if Ascii.eqb prev "_" then None else Some []
  | c :: l' =>
      if Ascii.eqb c "_" then
        if is_digit prev then sem_underscores c l' else None
      else if Ascii.eqb prev "_" && negb (is_digit c) then None
      else option_map (cons c) (sem_underscores c l')
  end.

(** The longest run of digits at the front: their count, their value when
    appended to [acc], and the rest. *)
Fixpoint digitos (l : list ascii) (acc : Z) (n : Z) : Z * Z * list ascii :=
  match l with
  | c :: l' => if is_digit c then digitos l' (10 * acc + digit_val c) (n + 1)
               else (acc, n, l)
  | [] => (acc, n, [])
  end.

Definition sinal (l : list ascii) : bool * list ascii :=
  match l with
  | "-"%char :: l' => (true, l')
  | "+"%char :: l' => (false, l')
  | _ => (false, l)
  end.

Definition palavra (l : list ascii) : string :=
  string_of_list_ascii (map lower l).

(** [digits [. digits] [(e|E) [sign] digits]] with a digit in the mantissa *)
Definition numero (s : bool) (l : list ascii) : option spec_float :=
  let '(m1, n1, l1) := digitos l 0 0 in
  let '(m2, n2, l2) :=
    match l1 with
    | "."%char :: l1' => digitos l1' m1 0
    | _ => (m1, 0, l1)
    end in
  if n1 + n2 =? 0 then None
  else
    match l2 with
    | [] => Some (of_decimal s m2 (- n2))
    | c :: l3 =>
        if Ascii.eqb (lower c) "e" then
          let '(se, l4) := sinal l3 in
          let '(x, nx, l5) := digitos l4 0 0 in
          match l5 with
          | [] => if nx =? 0 then None
                  else Some (of_decimal s m2 ((if se then - x else x) - n2))
          | _ => None
          end
        else None
    end.

Definition float_of_str (str : string) : option spec_float :=
  match sem_underscores "000"%char (strip (list_ascii_of_string str)) with
  | None => None
  | Some l =>
      let '(s, l') := sinal l in
      let w := palavra l' in
      if String.eqb w "inf" || String.eqb w "infinity" then Some (S754_infinity s)
      else if String.eqb w "nan" then Some S754_nan
      else numero s l'
  end.

(** *** Writing a float: the shortest digits that read back *)

(** [10^(p-1) <= n/d < 10^p], searched upwards from a lower estimate *)
Fixpoint ajusta_decpt (fuel : nat) (n d p : Z) : Z :=
  match fuel with
  | O => p
  | S fuel' =>
      if (if 0 <=? p then n <? d * 10 ^ p else n * 10 ^ (- p) <? d) then p
      else ajusta_decpt fuel' n d (p + 1)
  end.

(** The decimal point of [n/d]: [2^a <= n/d] gives [10^p0 <= n/d] for
    [p0] a little below [a * log10 2], and the search starts there. *)
Definition decpt_de (n d : Z) : Z :=
  let a := Z.log2 n - Z.log2 d - 1 in
  let p0 := (a * 30102) / 100000 - 1 in
  ajusta_decpt 8 n d p0.

Fixpoint tira_zeros (fuel : nat) (c : Z) (x : Z) : Z * Z :=
  match fuel with
  | O => (c, x)
  | S fuel' =>
      if (c mod 10 =? 0) && negb (c =? 0) then tira_zeros fuel' (c / 10) (x + 1)
      else (c, x)
  end.

(** The candidates with [k] digits around [n/d]; [Some (c, x)] is the value
    [c * 10^x] when one of them reads back as [v]. *)
Definition candidato (v : spec_float) (n d : Z) (p : Z) (k : Z) : option (Z * Z) :=
  let x := p - k in
  let num := if 0 <=? x then n else n * 10 ^ (- x) in
  let den := if 0 <=? x then d * 10 ^ x else d in
  let lo := num / den in
  let r := num mod den in
  let hi := lo + 1 in
  let volta c := match v, float_of_decimal c x with
                 | S754_finite _ m e, S754_finite _ m' e' => Pos.eqb m m' && (e =? e')
                 | _, _ => false
                 end in
  let ok_lo := (0 <? lo) && volta lo in
  let ok_hi := volta hi in
  if ok_lo && ok_hi then
    Some (if (2 * r <? den) || ((2 * r =? den) && Z.even lo) then lo else hi, x)
  else if ok_lo then Some (lo, x)
  else if ok_hi then Some (hi, x)
  else None.

Fixpoint mais_curto (fuel : nat) (v : spec_float) (n d p k : Z) : Z * Z :=
  match fuel with
  | O => (0, 0)
  | S fuel' =>
      match candidato v n d p k with
      | Some cx => cx
      | None => mais_curto fuel' v n d p (k + 1)
      end
  end.

Definition float_repr (v : spec_float) : string :=
  match v with
  | S754_nan => "nan"
  | S754_infinity s => if s then "-inf" else "inf"
  | S754_zero s => if s then "-0.0" else "0.0"
  | S754_finite s m e =>
      let n := if 0 <=? e then Zpos m * 2 ^ e else Zpos m in
      let d := if 0 <=? e then 1 else 2 ^ (- e) in
      let p := decpt_de n d in
      let '(c, x) := mais_curto 17 v n d p 1 in
      let '(c, x) := tira_zeros 20 c x in
      let dig := int_str c in
      let nd := Z.of_nat (String.length dig) in
      let decpt := x + nd in
      let corpo :=
        if (decpt <=? -4) || (16 <? decpt) then
          let ex := decpt - 1 in
          let exs := int_str (Z.abs ex) in
          substring 0 1 dig
          ++ (if 1 <? nd then "." ++ substring 1 (String.length dig - 1) dig else EmptyString)
          ++ "e" ++ (if ex <? 0 then "-" else "+")
          ++ (if Z.abs ex <? 10 then "0" else EmptyString) ++ exs
        else if decpt <=? 0 then
          "0." ++ repete (Z.to_nat (- decpt)) "0" ++ dig
        else if nd <=? decpt then
          dig ++ repete (Z.to_nat (decpt - nd)) "0" ++ ".0"
        else
          substring 0 (Z.to_nat decpt) dig ++ "."
          ++ substring (Z.to_nat decpt) (String.length dig - Z.to_nat decpt) dig in
      (if s then "-" else EmptyString) ++ corpo
  end.

Definition float_json (v : spec_float) : string :=
  match v with
  | S754_nan => "NaN"
  | S754_infinity s => if s then "-Infinity" else "Infinity"
  | _ => float_repr v
  end.

(** *** [repr] of a [str] *)

Fixpoint tem_char (c : ascii) (s : string) : bool :=
  match s with
  | EmptyString => false
  | String c' s' => Ascii.eqb c c' || tem_char c s'
  end.

Definition repr_char (q : ascii) (c : ascii) : string :=
  let n := nat_of_ascii c in
  if Ascii.eqb c q || (n =? 92)%nat then String (ascii_of_nat 92) (String c EmptyString)
  else if (n =? 9)%nat then "\t"
  else if (n =? 10)%nat then "\n"
  else if (n =? 13)%nat then "\r"
  else if (n <? 32)%nat || (n =? 127)%nat then
    "\x" ++ String (hex_digit (n / 16)) (String (hex_digit (n mod 16)) EmptyString)
  else String c EmptyString.

Fixpoint repr_chars (q : ascii) (s : string) : string :=
  match s with
  | EmptyString => EmptyString
  | String c s' => repr_char q c ++ repr_chars q s'
  end.

Definition str_repr (s : string) : string :=
  let q := if tem_char "'" s && negb (tem_char (ascii_of_nat 34) s)
           then ascii_of_nat 34 else "'"%char in
  String q (repr_chars q s ++ String q EmptyString).

#[export] Instance runtime : PyRuntime :=
  Build_PyRuntime spec_float float_of_decimal float_of_str float_of_int
    float_bool float_repr float_json str_repr.

End Binary64.

(** * Vocabulary of the properties *)

Section Vocabulario.
Context {RT : PyRuntime}.

(** ** Reading a field of the request body *)

(** [dados.get(k)] on a dict *)
Definition dget (d : pydict) (k : string) : pyval :=
  match dict_lookup d k with
  | Some v => v
  | None => PNone
  end.

(** The test the validator applies to a field, [if dados.get(k)]: a missing
    key, [null], an empty string, zero, [false] and an empty container all
    count as not given. *)
Definition presente (d : pydict) (k : string) : bool := truthy (dget d k).

(** ** The validator on a dict, member by member *)

(** One member of an odds group:
    [float(dados.get(k, 0)) if dados.get(k) else None] *)
Definition membro_r (d : pydict) (k : string) : result pyval :=
  if presente d k then (x <- py_float (dget d k) ;; Ok (PFloat x))%result
  else Ok PNone.

Fixpoint membros_r (d : pydict) (campos : list (string * string))
    : result (list (string * pyval)) :=
  match campos with
  | [] => Ok []
  | (k, nome) :: campos' =>
      (v <- membro_r d k ;;
       resto <- membros_r d campos' ;;
       Ok ((nome, v) :: resto))%result
  end.

(** An odds group: built when one of its request fields is given. *)
Definition grupo_r (d : pydict) (campos : list (string * string)) : result pyval :=
  if existsb (fun c => presente d (fst c)) campos then
    (itens <- membros_r d campos ;; Ok (PDict itens))%result
  else Ok PNone.

(** Request field and member name, group by group. *)
Definition CAMPOS_1X2 : list (string * string) :=
  [("odd_casa", "casa"); ("odd_empate", "empate"); ("odd_fora", "fora")].
Definition CAMPOS_OVER_UNDER : list (string * string) :=
  [("odd_over", "over"); ("odd_under", "under")].
Definition CAMPOS_BTTS : list (string * string) :=
  [("odd_btts_sim", "sim"); ("odd_btts_nao", "nao")].

(** The seven request fields that carry odds. *)
Definition CAMPOS_ODDS : list string :=
  map fst (CAMPOS_1X2 ++ CAMPOS_OVER_UNDER ++ CAMPOS_BTTS)%list.

Definition validar_dict (agora : datetime) (d : pydict) : result ConsultaAposta :=
  if negb (presente d "liga") then Raise (ValueError "Liga/Campeonato é obrigatório")
  else if negb (presente d "time_casa") then Raise (ValueError "Time da casa é obrigatório")
  else if negb (presente d "time_fora") then Raise (ValueError "Time visitante é obrigatório")
  else
    (g1 <- grupo_r d CAMPOS_1X2 ;;
     g2 <- grupo_r d CAMPOS_OVER_UNDER ;;
     g3 <- grupo_r d CAMPOS_BTTS ;;
     Ok (novo_ConsultaAposta agora (dget d "liga") (dget d "time_casa")
           (dget d "time_fora") g1 g2 g3 (dget d "contexto_adicional") None))%result.

(** The messages of the three [raise ValueError] of the validator. *)
Definition MENSAGENS_OBRIGATORIO : list string :=
  ["Liga/Campeonato é obrigatório"; "Time da casa é obrigatório";
   "Time visitante é obrigatório"].

(** What the Query holds for the request field [k]: the float read from
    the field when it is given, [None] otherwise. *)
Definition membro_ok (d : pydict) (k : string) (v : pyval) : Prop :=
  if presente d k then exists x, py_float (dget d k) = Ok x /\ v = PFloat x
  else v = PNone.

(** What the Query holds for a group: [None] when no field of the group is
    given, otherwise a dict with every member of the group. *)
Definition grupo_ok (d : pydict) (campos : list (string * string)) (g : pyval) : Prop :=
  if existsb (fun c => presente d (fst c)) campos then
    exists itens,
      g = PDict itens
      /\ Forall2 (fun c item => fst item = snd c /\ membro_ok d (fst c) (snd item))
           campos itens
  else g = PNone.

(** [float()] on the value answers or raises [ValueError], nothing else. *)
Definition float_so_ValueError (v : pyval) : Prop :=
  forall e, py_float v = Raise e -> exists msg, e = ValueError msg.

(** Two Queries that differ at most in their timestamp. *)
Definition mesma_consulta (q1 q2 : ConsultaAposta) : Prop :=
  liga q1 = liga q2 /\ time_casa q1 = time_casa q2 /\ time_fora q1 = time_fora q2
  /\ odds_1x2 q1 = odds_1x2 q2 /\ odds_over_under q1 = odds_over_under q2
  /\ odds_btts q1 = odds_btts q2
  /\ contexto_adicional q1 = contexto_adicional q2.

(** ** The shapes of a response body *)

(** The success payload of [processar_consulta] for the text [analise_completa]. *)
Definition resultado_sucesso (self : AnalistaQuantitativoXG)
    (consulta : ConsultaAposta) (analise_completa : string) : pyval :=
  PDict [
    ("analise_completa", PStr analise_completa);
    ("partida", PStr (py_str (time_casa consulta) ++ " vs " ++ py_str (time_fora consulta)));
    ("liga", liga consulta);
    ("odds_fornecidas", PDict [
       ("1x2", odds_1x2 consulta);
       ("over_under", odds_over_under consulta);
       ("btts", odds_btts consulta)]);
    ("timestamp", PStr (isoformat (timestamp consulta)));
    ("modelo_usado", PStr (model_name (client self) ++ " (Google AI)"));
    ("metodologia", PStr METODOLOGIA);
    ("disclaimer", PStr DISCLAIMER)].

Definition CHAVES_SUCESSO : list string :=
  ["analise_completa"; "partida"; "liga"; "odds_fornecidas"; "timestamp";
   "modelo_usado"; "metodologia"; "disclaimer"].

(** The success shape: the eight keys of the Result, and no error flag. *)
Definition payload_sucesso (v : pyval) : Prop :=
  exists d, v = PDict d /\ map fst d = CHAVES_SUCESSO.

(** The error shape: error flag, message, details. *)
Definition payload_de_erro (v : pyval) : Prop :=
  exists mensagem detalhes, v = payload_erro mensagem detalhes.

(** The status/shape combinations of section 6 of the specification. *)
Definition forma_declarada (r : resposta) : Prop :=
  (payload_sucesso (fst r) /\ snd r = 200)
  \/ (payload_de_erro (fst r) /\ (snd r = 400 \/ snd r = 500)).

(** The status/shape combinations of the route. *)
Inductive forma_resposta : resposta -> Prop :=
| forma_sucesso (r : pyval) :
    payload_sucesso r -> forma_resposta (r, 200)
| forma_erro_gateway (mensagem detalhes : string) :
    In mensagem [MSG_BLOQUEADA; MSG_EXTRACAO; MSG_INTERNO] ->
    forma_resposta (payload_erro mensagem detalhes, 200)
| forma_erro_validacao (detalhes : string) :
    forma_resposta (payload_erro MSG_INVALIDOS detalhes, 400)
| forma_erro_servidor (mensagem detalhes : string) :
    In mensagem [MSG_NAO_INICIALIZADO; MSG_SERVIDOR] ->
    forma_resposta (payload_erro mensagem detalhes, 500).

Definition status_de (m : M resposta) : option Z :=
  match desfecho m with
  | Ok r => Some (snd r)
  | Raise _ => None
  end.

Definition corpo_de (m : M resposta) : option pyval :=
  match desfecho m with
  | Ok r => Some (fst r)
  | Raise _ => None
  end.

(** The prompts sent to the external model, in order. *)
Fixpoint chamadas (l : list evento) : list string :=
  match l with
  | [] => []
  | GenerateContent prompt :: l' => prompt :: chamadas l'
  | _ :: l' => chamadas l'
  end.

(** ** [processar_consulta] and the route, case by case *)

Definition LOG_INICIO (consulta : ConsultaAposta) : evento :=
  LogInfo ("Processando análise: " ++ py_str (time_casa consulta)
           ++ " vs " ++ py_str (time_fora consulta)).

(** What [processar_consulta] does, by what rendering, the call and the
    text extraction did. *)
Definition processar_casos (self : AnalistaQuantitativoXG)
    (consulta : ConsultaAposta) : M pyval :=
  match _gerar_prompt_especializado self consulta with
  | Raise e =>
      ([LOG_INICIO consulta; LogError ("Erro ao processar análise: " ++ exc_str e)],
       Ok (payload_erro MSG_INTERNO (exc_str e)))
  | Ok prompt =>
      match generate_content (client self) prompt with
      | Raise e =>
          ([LOG_INICIO consulta; GenerateContent prompt;
            LogError ("Erro ao processar análise: " ++ exc_str e)],
           Ok (payload_erro MSG_INTERNO (exc_str e)))
      | Ok response =>
          match text response with
          | Ok analise_completa =>
              ([LOG_INICIO consulta; GenerateContent prompt;
                LogInfo "Análise processada com sucesso"],
               Ok (resultado_sucesso self consulta analise_completa))
          | Raise e =>
              if exc_value_error e then
                ([LOG_INICIO consulta; GenerateContent prompt;
                  LogError ("Resposta bloqueada pelo Gemini: " ++ exc_str e);
                  LogError ("Detalhes do bloqueio: " ++ prompt_feedback response)],
                 Ok (payload_erro MSG_BLOQUEADA
                       ("Feedback do Prompt: " ++ prompt_feedback response)))
              else
                ([LOG_INICIO consulta; GenerateContent prompt;
                  LogError ("Erro ao extrair texto da resposta: " ++ exc_str e)],
                 Ok (payload_erro MSG_EXTRACAO (exc_str e)))
          end
      end
  end.

(** What the handlers of the route do with an exception. *)
Definition rota_excecao (e : excecao) : M resposta :=
  if exc_value_error e then
    ([LogError ("Erro de validação: " ++ exc_str e)],
     Ok (payload_erro MSG_INVALIDOS (exc_str e), 400))
  else
    ([LogError ("Erro inesperado na rota: " ++ exc_str e)],
     Ok (payload_erro MSG_SERVIDOR (exc_str e), 500)).

(** ** Substrings *)

Fixpoint comeca_com (sub s : string) : bool :=
  match sub, s with
  | EmptyString, _ => true
  | String a sub', String b s' => if Ascii.eqb a b then comeca_com sub' s' else false
  | String _ _, EmptyString => false
  end.

(** [sub in s] *)
Fixpoint contem (sub s : string) : bool :=
  if comeca_com sub s then true
  else match s with
       | EmptyString => false
       | String _ s' => contem sub s'
       end.

Definition Substring (sub s : string) : Prop :=
  exists antes depois, s = antes ++ sub ++ depois.

(** ** Requests, clients and analysts for the examples *)

Definition AGORA : datetime :=
  {| year := 2024; month := 3; day := 7; hour := 9; minute := 5; second := 0;
     microsecond := 120 |}.

Definition MAIS_TARDE : datetime :=
  {| year := 2024; month := 3; day := 7; hour := 9; minute := 6; second := 30;
     microsecond := 0 |}.

(** The valid minimal input. *)
Definition DADOS_MINIMOS : pydict :=
  [("liga", PStr "Test League"); ("time_casa", PStr "A"); ("time_fora", PStr "B")].

(** The minimal input without its league, and with an empty league. *)
Definition DADOS_SEM_LIGA : pydict :=
  [("time_casa", PStr "A"); ("time_fora", PStr "B")].
Definition DADOS_LIGA_VAZIA : pydict :=
  [("liga", PStr EmptyString); ("time_casa", PStr "A"); ("time_fora", PStr "B")].

(** The minimal input with an odds field that is not a number. *)
Definition DADOS_ODD_INVALIDA : pydict :=
  [("liga", PStr "Test League"); ("time_casa", PStr "A"); ("time_fora", PStr "B");
   ("odd_casa", PStr "abc")].

(** The same with a JSON array in the odds field that is read first. *)
Definition DADOS_ODD_LISTA : pydict :=
  [("liga", PStr "Test League"); ("time_casa", PStr "A"); ("time_fora", PStr "B");
   ("odd_casa", PList [PInt 2]); ("odd_empate", PStr "abc")].

(** A request with two of the three odds groups, and a context. *)
Definition DADOS_COM_ODDS : pydict :=
  [("liga", PStr "Brasileirão"); ("time_casa", PStr "Grêmio");
   ("time_fora", PStr "Inter"); ("odd_casa", PStr "2.10"); ("odd_fora", PStr "3");
   ("odd_btts_nao", PStr "1.85"); ("contexto_adicional", PStr "chuva forte")].

(** The Query of a request that the validator accepts. *)
Definition consulta_de (agora : datetime) (dados : pyval) : ConsultaAposta :=
  match validar_contexto_consulta agora dados with
  | Ok consulta => consulta
  | Raise _ =>
      novo_ConsultaAposta agora PNone PNone PNone PNone PNone PNone PNone None
  end.

(** The prompt of a Query that renders. *)
Definition prompt_de (self : AnalistaQuantitativoXG) (consulta : ConsultaAposta)
    : string :=
  match _gerar_prompt_especializado self consulta with
  | Ok prompt => prompt
  | Raise _ => EmptyString
  end.

(** A client that answers every prompt with [texto]. *)
Definition cliente_que_responde (texto : string) : cliente :=
  {| model_name := "models/gemini-1.5-pro-latest";
     generate_content := fun _ =>
       Ok {| text := Ok texto; prompt_feedback := EmptyString |} |}.

(** A client whose response was withheld by the safety filter: reading
    [response.text] raises [ValueError]. *)
Definition cliente_bloqueado : cliente :=
  {| model_name := "models/gemini-1.5-pro-latest";
     generate_content := fun _ =>
       Ok {| text := Raise (ValueError "The `response.text` quick accessor only works when the response contains a valid `Part`.");
             prompt_feedback := "block_reason: SAFETY" |} |}.

(** A client whose call fails in transport. *)
Definition cliente_fora_do_ar : cliente :=
  {| model_name := "models/gemini-1.5-pro-latest";
     generate_content := fun _ =>
       Raise (Excecao "ServiceUnavailable" false "503 The service is currently unavailable.") |}.

(** The analyst that [__init__] builds around a client. *)
Definition analista_com (c : cliente) : AnalistaQuantitativoXG :=
  {| api_key := "chave";
     generation_config := PDict [
       ("temperature", PFloat (float_of_decimal 1 (-1)));
       ("max_output_tokens", PInt 2048)];
     safety_settings := PList [];
     client := c;
     base_conhecimento := _carregar_base_conhecimento |}.

(** ** Vocabulary of the further properties *)

(** The eleven request fields that the validator reads. *)
Definition CAMPOS_LIDOS : list string :=
  (["liga"; "time_casa"; "time_fora"] ++ CAMPOS_ODDS ++ ["contexto_adicional"])%list.

(** How [_formatar_odds] writes the member of a group that the validator
    built from the request field [k]: the float, or [None]. *)
Definition rende_membro (d : pydict) (k : string) : string :=
  match membro_r d k with
  | Ok v => py_str v
  | Raise _ => "None"
  end.

(** Is one of the fields of the group given? *)
Definition grupo_presente (d : pydict) (campos : list (string * string)) : bool :=
  existsb (fun c => presente d (fst c)) campos.

(** The line of a group, when one of its fields is given. *)
Definition linha_se (cond : bool) (linha : string) : list string :=
  if cond then [linha] else [].

(** The odds text of a request, read off the request fields. *)
Definition odds_texto_de (d : pydict) : string :=
  let l1 := linha_se (grupo_presente d CAMPOS_1X2)
              ("  • 1X2: Casa " ++ rende_membro d "odd_casa"
               ++ " | Empate " ++ rende_membro d "odd_empate"
               ++ " | Fora " ++ rende_membro d "odd_fora") in
  let l2 := linha_se (grupo_presente d CAMPOS_OVER_UNDER)
              ("  • Over/Under 2.5: Over " ++ rende_membro d "odd_over"
               ++ " | Under " ++ rende_membro d "odd_under") in
  let l3 := linha_se (grupo_presente d CAMPOS_BTTS)
              ("  • BTTS: Sim " ++ rende_membro d "odd_btts_sim"
               ++ " | Não " ++ rende_membro d "odd_btts_nao") in
  match app l1 (app l2 l3) with
  | [] => "  • Odds não fornecidas"
  | odds_texto => join nl odds_texto
  end.

(** The generation settings and the safety settings of [__init__]. *)
Definition GENERATION_CONFIG : pyval :=
  PDict [("temperature", PFloat (float_of_decimal 1 (-1)));
         ("max_output_tokens", PInt 2048)].

Definition SAFETY_SETTINGS : pyval :=
  PList [
    PDict [("category", PStr "HARM_CATEGORY_HARASSMENT"); ("threshold", PStr "BLOCK_NONE")];
    PDict [("category", PStr "HARM_CATEGORY_HATE_SPEECH"); ("threshold", PStr "BLOCK_NONE")];
    PDict [("category", PStr "HARM_CATEGORY_SEXUALLY_EXPLICIT"); ("threshold", PStr "BLOCK_NONE")];
    PDict [("category", PStr "HARM_CATEGORY_DANGEROUS_CONTENT"); ("threshold", PStr "BLOCK_NONE")]].

(** Is the key one that [__main__] accepts? *)
Definition chave_utilizavel (GOOGLE_API_KEY : option string) : option string :=
  match GOOGLE_API_KEY with
  | None => None
  | Some k =>
      if String.eqb k EmptyString || String.eqb k "SUA_CHAVE_API_DO_GEMINI_AQUI"
      then None else Some k
  end.

(** Does the log hold an error line? *)
Definition tem_log_error (l : list evento) : bool :=
  existsb (fun e => match e with LogError _ => true | _ => false end) l.

(** What the route answers after an exception of the validator or of
    [get_json]. *)
Definition status_excecao (e : excecao) : Z :=
  if exc_value_error e then 400 else 500.

(** *** Further requests, clients and Queries for the examples *)

(** No league, no home team, and an odds field that is not a number. *)
Definition DADOS_TUDO_ERRADO : pydict :=
  [("time_fora", PStr "B"); ("odd_casa", PStr "abc")].

(** [DADOS_COM_ODDS] in another order, with a field the validator ignores. *)
Definition DADOS_COM_ODDS_E_MAIS : pydict :=
  [("idioma", PStr "pt-BR"); ("contexto_adicional", PStr "chuva forte");
   ("odd_btts_nao", PStr "1.85"); ("odd_fora", PStr "3"); ("odd_casa", PStr "2.10");
   ("time_fora", PStr "Inter"); ("time_casa", PStr "Grêmio");
   ("liga", PStr "Brasileirão")].



(** An SDK that builds a client answering [texto]. *)
Definition genai_que_responde (texto : string) : genai_sdk :=
  {| configure := fun _ => Ok tt;
     GenerativeModel := fun _ _ _ _ => Ok (cliente_que_responde texto) |}.

(** An SDK whose [configure] rejects the key. *)
Definition genai_chave_recusada : genai_sdk :=
  {| configure := fun _ => Raise (ValueError "Invalid API key");
     GenerativeModel := fun _ _ _ _ => Ok (cliente_que_responde "ok") |}.

(** The minimal input with the home odd given as the JSON number zero. *)
Definition DADOS_ODD_ZERO : pydict :=
  [("liga", PStr "Test League"); ("time_casa", PStr "A"); ("time_fora", PStr "B");
   ("odd_casa", PInt 0)].

(** The same with a draw odd besides: the group is built, without the zero. *)
Definition DADOS_ODD_ZERO_E_EMPATE : pydict :=
  [("liga", PStr "Test League"); ("time_casa", PStr "A"); ("time_fora", PStr "B");
   ("odd_casa", PInt 0); ("odd_empate", PStr "3.2")].

(** The minimal input with a home odd that no float holds: 2^53 + 1. *)
Definition DADOS_ODD_GRANDE : pydict :=
  [("liga", PStr "Test League"); ("time_casa", PStr "A"); ("time_fora", PStr "B");
   ("odd_casa", PStr "9007199254740993")].

(** The member [nome] of the group [grupo] in the [odds_fornecidas] of a
    response, when it is there. *)
Definition membro_ecoado (m : M resposta) (grupo nome : string) : option pyval :=
  match corpo_de m with
  | Some (PDict itens) =>
      match dict_lookup itens "odds_fornecidas" with
      | Some (PDict grupos) =>
          match dict_lookup grupos grupo with
          | Some (PDict membros) => dict_lookup membros nome
          | _ => None
          end
      | _ => None
      end
  | _ => None
  end.

(** The group [grupo] in the [odds_fornecidas] of a response. *)
Definition grupo_ecoado (m : M resposta) (grupo : string) : option pyval :=
  match corpo_de m with
  | Some (PDict itens) =>
      match dict_lookup itens "odds_fornecidas" with
      | Some (PDict grupos) => dict_lookup grupos grupo
      | _ => None
      end
  | _ => None
  end.

(** The analyst that the constructor builds, when it succeeds. *)
Definition analista_de (genai : genai_sdk) (chave : string) : AnalistaQuantitativoXG :=
  match desfecho (AnalistaQuantitativoXG_init genai chave) with
  | Ok analista => analista
  | Raise _ => analista_com cliente_fora_do_ar
  end.

End Vocabulario.

(** * Properties *)

Section Propriedades.
Context {RT : PyRuntime}.

(** ** Dict access *)

Lemma py_get_dict (d : pydict) (k : string) : py_get (PDict d) k = Ok (dget d k).
Proof. reflexivity. Qed.

Lemma py_get_default_presente (d : pydict) (k : string) (v0 : pyval) :
  presente d k = true -> py_get_default (PDict d) k v0 = Ok (dget d k).
Proof.
  unfold presente, dget, py_get_default.
  destruct (dict_lookup d k); [reflexivity | discriminate].
Qed.

Lemma py_getitem_presente (d : pydict) (k : string) :
  presente d k = true -> py_getitem (PDict d) k = Ok (dget d k).
Proof.
  unfold presente, dget, py_getitem.
  destruct (dict_lookup d k); [reflexivity | discriminate].
Qed.

Lemma presente_nao_vazio (d : pydict) (k : string) :
  presente d k = true -> dget d k <> PNone /\ dget d k <> PStr EmptyString.
Proof.
  unfold presente. destruct (dget d k) as [| | | | s | |]; simpl; try discriminate;
    intros H; split; try discriminate.
  intros E. injection E as ->. discriminate.
Qed.

Lemma ausente_sem_chave (d : pydict) (k : string) :
  dict_lookup d k = None -> presente d k = false.
Proof. unfold presente, dget. intros ->. reflexivity. Qed.

Lemma ausente_vazio (d : pydict) (k : string) :
  dict_lookup d k = Some (PStr EmptyString) -> presente d k = false.
Proof. unfold presente, dget. intros ->. reflexivity. Qed.

(** ** The validator *)

Lemma odd_dict (d : pydict) (k : string) : odd (PDict d) k = membro_r d k.
Proof.
  unfold odd, membro_r. rewrite py_get_dict. cbn [rbind]. fold (presente d k).
  destruct (presente d k) eqn:E; [| reflexivity].
  rewrite (py_get_default_presente d k _ E). reflexivity.
Qed.

(** On a dict the validator is [validar_dict]. *)
Lemma validar_contexto_consulta_dict (agora : datetime) (d : pydict) :
  validar_contexto_consulta agora (PDict d) = validar_dict agora d.
Proof.
  unfold validar_contexto_consulta, validar_dict, obrigatorio, py_or.
  rewrite !odd_dict, !py_get_dict. cbn [rbind].
  fold (presente d "liga") (presente d "time_casa") (presente d "time_fora").
  fold (presente d "odd_casa") (presente d "odd_empate") (presente d "odd_fora").
  fold (presente d "odd_over") (presente d "odd_under").
  fold (presente d "odd_btts_sim") (presente d "odd_btts_nao").
  destruct (presente d "liga") eqn:E1; [| reflexivity].
  destruct (presente d "time_casa") eqn:E2; [| reflexivity].
  destruct (presente d "time_fora") eqn:E3; [| reflexivity].
  cbn [negb rbind].
  rewrite (py_getitem_presente _ _ E1), (py_getitem_presente _ _ E2),
    (py_getitem_presente _ _ E3).
  unfold grupo_r, CAMPOS_1X2, CAMPOS_OVER_UNDER, CAMPOS_BTTS.
  cbn [existsb fst membros_r]. unfold presente.
  repeat first
    [ reflexivity
    | match goal with
      | |- context [truthy (dget d ?k)] =>
          let E := fresh "E" in
          destruct (truthy (dget d k)) eqn:E; cbn [rbind orb]; rewrite ?E
      | |- context [membro_r d ?k] =>
          destruct (membro_r d k); cbn [rbind]
      end ].
Qed.

(** On anything else the first [dados.get] raises [AttributeError]. *)
Lemma validar_contexto_consulta_nao_dict (agora : datetime) (dados : pyval) :
  (forall d, dados <> PDict d) ->
  validar_contexto_consulta agora dados = Raise (no_attribute dados "get").
Proof.
  intros H. destruct dados; try reflexivity. exfalso. apply (H d). reflexivity.
Qed.

Lemma validar_ok_dict (agora : datetime) (dados : pyval) (q : ConsultaAposta) :
  validar_contexto_consulta agora dados = Ok q ->
  exists d, dados = PDict d /\ validar_dict agora d = Ok q.
Proof.
  intros H. destruct dados; try discriminate H.
  eexists. split; [reflexivity |]. rewrite <- validar_contexto_consulta_dict. exact H.
Qed.

Lemma membro_r_ok (d : pydict) (k : string) (v : pyval) :
  membro_r d k = Ok v -> membro_ok d k v.
Proof.
  unfold membro_r, membro_ok. destruct (presente d k).
  - destruct (py_float (dget d k)) as [x | e]; cbn [rbind]; intros H;
      [| discriminate H].
    injection H as <-. exists x. split; reflexivity.
  - intros H. injection H as <-. reflexivity.
Qed.

Lemma membro_r_raise (d : pydict) (k : string) (e : excecao) :
  membro_r d k = Raise e -> presente d k = true /\ py_float (dget d k) = Raise e.
Proof.
  unfold membro_r. destruct (presente d k); [| discriminate].
  destruct (py_float (dget d k)) as [x | e']; cbn [rbind]; intros H;
    [discriminate H |].
  injection H as ->. split; reflexivity.
Qed.

Lemma membros_r_ok (d : pydict) (campos : list (string * string)) :
  forall itens,
    membros_r d campos = Ok itens ->
    Forall2 (fun c item => fst item = snd c /\ membro_ok d (fst c) (snd item))
      campos itens.
Proof.
  induction campos as [| [k nome] campos IH]; intros itens H; cbn [membros_r] in H.
  - injection H as <-. constructor.
  - destruct (membro_r d k) as [v | e] eqn:Ev; cbn [rbind] in H; [| discriminate H].
    destruct (membros_r d campos) as [resto | e]; cbn [rbind] in H; [| discriminate H].
    injection H as <-. constructor.
    + split; [reflexivity | apply membro_r_ok; exact Ev].
    + apply IH. reflexivity.
Qed.

Lemma membros_r_raise (d : pydict) (campos : list (string * string)) (e : excecao) :
  membros_r d campos = Raise e ->
  exists c, In c campos /\ presente d (fst c) = true
            /\ py_float (dget d (fst c)) = Raise e.
Proof.
  induction campos as [| [k nome] campos IH]; cbn [membros_r]; intros H.
  - discriminate H.
  - destruct (membro_r d k) as [v | e'] eqn:Ev; cbn [rbind] in H.
    + destruct (membros_r d campos) as [resto | e'']; cbn [rbind] in H;
        [discriminate H |].
      injection H as ->. destruct (IH eq_refl) as (c & Hc & Hp & Hf).
      exists c. split; [right; exact Hc | split; assumption].
    + injection H as ->. apply membro_r_raise in Ev. destruct Ev as [Hp Hf].
      exists (k, nome). split; [left; reflexivity | split; assumption].
Qed.

Lemma grupo_r_ok (d : pydict) (campos : list (string * string)) (g : pyval) :
  grupo_r d campos = Ok g -> grupo_ok d campos g.
Proof.
  unfold grupo_r, grupo_ok.
  destruct (existsb (fun c => presente d (fst c)) campos).
  - destruct (membros_r d campos) as [itens | e] eqn:E; cbn [rbind]; intros H;
      [| discriminate H].
    injection H as <-. exists itens. split; [reflexivity |].
    apply membros_r_ok. exact E.
  - intros H. injection H as <-. reflexivity.
Qed.

Lemma grupo_r_raise (d : pydict) (campos : list (string * string)) (e : excecao) :
  grupo_r d campos = Raise e ->
  exists k, In k (map fst campos) /\ presente d k = true
            /\ py_float (dget d k) = Raise e.
Proof.
  unfold grupo_r. destruct (existsb (fun c => presente d (fst c)) campos);
    [| discriminate].
  destruct (membros_r d campos) as [itens | e'] eqn:E; cbn [rbind]; intros H;
    [discriminate H |].
  injection H as ->. destruct (membros_r_raise _ _ _ E) as (c & Hc & Hp & Hf).
  exists (fst c). split; [apply in_map; exact Hc | split; assumption].
Qed.

(** A group that was built gave every field that is present a float. *)
Lemma grupo_ok_presente (d : pydict) (campos : list (string * string)) (g : pyval) :
  grupo_ok d campos g ->
  forall k, In k (map fst campos) -> presente d k = true ->
            exists x, py_float (dget d k) = Ok x.
Proof.
  unfold grupo_ok. intros H k Hk Hp.
  destruct (existsb (fun c => presente d (fst c)) campos) eqn:Ex.
  - destruct H as (itens & _ & HF). clear Ex.
    induction HF as [| c item campos itens [_ Hm] HF IH]; [destruct Hk |].
    destruct Hk as [<- | Hk]; [| apply IH; exact Hk].
    unfold membro_ok in Hm. rewrite Hp in Hm. destruct Hm as (x & Hx & _).
    exists x. exact Hx.
  - exfalso. apply in_map_iff in Hk. destruct Hk as (c & <- & Hc).
    assert (existsb (fun c => presente d (fst c)) campos = true) as Ht
      by (apply existsb_exists; exists c; split; assumption).
    rewrite Ht in Ex. discriminate Ex.
Qed.

(** A group that was built has a member that holds a float. *)
Lemma grupo_ok_membro (d : pydict) (campos : list (string * string)) (g : pyval) :
  grupo_ok d campos g -> g <> PNone ->
  exists itens nome x, g = PDict itens /\ In (nome, PFloat x) itens.
Proof.
  unfold grupo_ok. intros H Hg.
  destruct (existsb (fun c => presente d (fst c)) campos) eqn:Ex;
    [| contradiction].
  destruct H as (itens & -> & HF). exists itens.
  apply existsb_exists in Ex. destruct Ex as (c & Hc & Hp). clear Hg.
  induction HF as [| c' item campos itens [Hn Hm] HF IH]; [destruct Hc |].
  destruct Hc as [-> | Hc].
  - unfold membro_ok in Hm. rewrite Hp in Hm. destruct Hm as (x & _ & Hx).
    exists (fst item), x. split; [reflexivity |]. left.
    destruct item as [n v]. cbn [fst snd] in *. subst v. reflexivity.
  - destruct (IH Hc) as (nome & x & _ & Hin).
    exists nome, x. split; [reflexivity | right; exact Hin].
Qed.

(** What a Query that the validator built holds. *)
Lemma validar_dict_ok (agora : datetime) (d : pydict) (q : ConsultaAposta) :
  validar_dict agora d = Ok q ->
  (presente d "liga" = true /\ presente d "time_casa" = true
   /\ presente d "time_fora" = true)
  /\ (liga q = dget d "liga" /\ time_casa q = dget d "time_casa"
      /\ time_fora q = dget d "time_fora")
  /\ (grupo_ok d CAMPOS_1X2 (odds_1x2 q)
      /\ grupo_ok d CAMPOS_OVER_UNDER (odds_over_under q)
      /\ grupo_ok d CAMPOS_BTTS (odds_btts q))
  /\ contexto_adicional q = dget d "contexto_adicional"
  /\ timestamp q = agora.
Proof.
  unfold validar_dict.
  destruct (presente d "liga"); cbn [negb]; [| discriminate].
  destruct (presente d "time_casa"); cbn [negb]; [| discriminate].
  destruct (presente d "time_fora"); cbn [negb]; [| discriminate].
  destruct (grupo_r d CAMPOS_1X2) as [g1 | e] eqn:E1; cbn [rbind]; [| discriminate].
  destruct (grupo_r d CAMPOS_OVER_UNDER) as [g2 | e] eqn:E2; cbn [rbind];
    [| discriminate].
  destruct (grupo_r d CAMPOS_BTTS) as [g3 | e] eqn:E3; cbn [rbind]; [| discriminate].
  intros H. injection H as <-. cbn.
  repeat split; try reflexivity; apply grupo_r_ok; assumption.
Qed.

(** Why the validator raised on a dict. *)
Lemma validar_dict_raise (agora : datetime) (d : pydict) (e : excecao) :
  validar_dict agora d = Raise e ->
  (exists msg, e = ValueError msg
     /\ (presente d "liga" && presente d "time_casa" && presente d "time_fora")%bool
        = false)
  \/ ((presente d "liga" && presente d "time_casa" && presente d "time_fora")%bool
      = true
      /\ exists k, In k CAMPOS_ODDS /\ presente d k = true
                   /\ py_float (dget d k) = Raise e).
Proof.
  unfold validar_dict.
  destruct (presente d "liga"); cbn [negb andb];
    [| intros H; injection H as <-; left; eexists; split; reflexivity].
  destruct (presente d "time_casa"); cbn [negb andb];
    [| intros H; injection H as <-; left; eexists; split; reflexivity].
  destruct (presente d "time_fora"); cbn [negb andb];
    [| intros H; injection H as <-; left; eexists; split; reflexivity].
  intros H. right. split; [reflexivity |].
  assert (forall campos,
            incl (map fst campos) CAMPOS_ODDS ->
            grupo_r d campos = Raise e ->
            exists k, In k CAMPOS_ODDS /\ presente d k = true
                      /\ py_float (dget d k) = Raise e) as Hg.
  { intros campos Hi Hr. destruct (grupo_r_raise _ _ _ Hr) as (k & Hk & Hp & Hf).
    exists k. split; [apply Hi; exact Hk | split; assumption]. }
  destruct (grupo_r d CAMPOS_1X2) as [g1 | e1] eqn:E1; cbn [rbind] in H.
  2:{ injection H as ->. apply (Hg CAMPOS_1X2); [| exact E1].
      intros k Hk. cbn in *. tauto. }
  destruct (grupo_r d CAMPOS_OVER_UNDER) as [g2 | e2] eqn:E2; cbn [rbind] in H.
  2:{ injection H as ->. apply (Hg CAMPOS_OVER_UNDER); [| exact E2].
      intros k Hk. cbn in *. tauto. }
  destruct (grupo_r d CAMPOS_BTTS) as [g3 | e3] eqn:E3; cbn [rbind] in H.
  2:{ injection H as ->. apply (Hg CAMPOS_BTTS); [| exact E3].
      intros k Hk. cbn in *. tauto. }
  discriminate H.
Qed.

(** A Query was built: every odds field that is present was read as a float. *)
Lemma validar_dict_ok_presente (agora : datetime) (d : pydict) (q : ConsultaAposta) :
  validar_dict agora d = Ok q ->
  forall k, In k CAMPOS_ODDS -> presente d k = true ->
            exists x, py_float (dget d k) = Ok x.
Proof.
  intros H k Hk Hp.
  destruct (validar_dict_ok _ _ _ H) as (_ & _ & (H1 & H2 & H3) & _).
  unfold CAMPOS_ODDS in Hk. rewrite !map_app, !in_app_iff in Hk.
  destruct Hk as [Hk | [Hk | Hk]].
  - exact (grupo_ok_presente _ _ _ H1 k Hk Hp).
  - exact (grupo_ok_presente _ _ _ H2 k Hk Hp).
  - exact (grupo_ok_presente _ _ _ H3 k Hk Hp).
Qed.

(** [float()] raises [ValueError] on strings only, and says which. *)
Lemma py_float_ValueError (v : pyval) (msg : string) :
  py_float v = Raise (ValueError msg) ->
  exists s, v = PStr s /\ float_of_str s = None
            /\ msg = "could not convert string to float: " ++ str_repr s.
Proof.
  destruct v as [| b | n | x | s | l | d]; cbn [py_float]; try discriminate.
  - destruct (float_of_int (if b then 1 else 0)); discriminate.
  - destruct (float_of_int n); discriminate.
  - destruct (float_of_str s) eqn:E; [discriminate |].
    intros H. injection H as <-. exists s. repeat split. exact E.
Qed.

Lemma float_so_ValueError_str (s : string) : float_so_ValueError (PStr s).
Proof.
  intros e. cbn [py_float]. destruct (float_of_str s); [discriminate |].
  intros H. injection H as <-. eexists. reflexivity.
Qed.

(** Equal requests give equal Queries, up to the clock. *)
Lemma validar_mesma_consulta (agora1 agora2 : datetime) (dados : pyval)
    (q1 q2 : ConsultaAposta) :
  validar_contexto_consulta agora1 dados = Ok q1 ->
  validar_contexto_consulta agora2 dados = Ok q2 ->
  mesma_consulta q1 q2.
Proof.
  intros H1 H2.
  destruct (validar_ok_dict _ _ _ H1) as (d & -> & H1').
  rewrite validar_contexto_consulta_dict in H2.
  unfold validar_dict in H1', H2.
  destruct (negb (presente d "liga")); [discriminate |].
  destruct (negb (presente d "time_casa")); [discriminate |].
  destruct (negb (presente d "time_fora")); [discriminate |].
  destruct (grupo_r d CAMPOS_1X2); cbn [rbind] in *; [| discriminate].
  destruct (grupo_r d CAMPOS_OVER_UNDER); cbn [rbind] in *; [| discriminate].
  destruct (grupo_r d CAMPOS_BTTS); cbn [rbind] in *; [| discriminate].
  injection H1' as <-. injection H2 as <-.
  unfold mesma_consulta. cbn. repeat split.
Qed.

(** ** Substrings *)


Lemma comeca_com_correct (sub s : string) :
  comeca_com sub s = true <-> exists depois, s = sub ++ depois.
Proof.
  revert s. induction sub as [| a sub IH]; intros s; cbn.
  - split; [intros _; exists s; reflexivity | reflexivity].
  - destruct s as [| b s].
    + split; [discriminate | intros (x & H); discriminate H].
    + destruct (Ascii.eqb_spec a b) as [-> | Hab].
      * rewrite IH. split; intros (x & H); exists x.
        -- rewrite H. reflexivity.
        -- injection H as H. exact H.
      * split; [discriminate |]. intros (x & H). injection H as H1 H2.
        congruence.
Qed.

(** [contem] decides [Substring]. *)
Lemma contem_correct (sub s : string) :
  contem sub s = true <-> Substring sub s.
Proof.
  induction s as [| b s IH].
  - cbn [contem]. destruct (comeca_com sub EmptyString) eqn:E.
    + split; [intros _ | reflexivity].
      apply comeca_com_correct in E. destruct E as (x & E).
      exists EmptyString, x. exact E.
    + split; [discriminate |]. intros (pre & post & H).
      destruct pre; [| discriminate H]. cbn in H.
      assert (comeca_com sub EmptyString = true) as E'
        by (apply comeca_com_correct; exists post; exact H).
      congruence.
  - cbn [contem]. destruct (comeca_com sub (String b s)) eqn:E.
    + split; [intros _ | reflexivity].
      apply comeca_com_correct in E. destruct E as (x & E).
      exists EmptyString, x. exact E.
    + rewrite IH. split.
      * intros (pre & post & ->). exists (String b pre), post. reflexivity.
      * intros (pre & post & H). destruct pre as [| c pre].
        -- cbn in H.
           assert (comeca_com sub (String b s) = true) as E'
             by (apply comeca_com_correct; exists post; exact H).
           congruence.
        -- injection H as _ H. exists pre, post. exact H.
Qed.

(** ** [processar_consulta] and the route, case by case *)

Lemma resultado_sucesso_payload self consulta analise :
  payload_sucesso (resultado_sucesso self consulta analise).
Proof. eexists. split; reflexivity. Qed.

Lemma payload_sucesso_nao_erro (v : pyval) :
  payload_sucesso v -> ~ payload_de_erro v.
Proof.
  intros (d & -> & Hk) (m & det & E). unfold payload_erro in E.
  injection E as ->. discriminate Hk.
Qed.

Lemma processar_consulta_casos self consulta :
  processar_consulta self consulta = processar_casos self consulta.
Proof.
  unfold processar_consulta, processar_casos, chamar, LOG_INICIO.
  destruct (_gerar_prompt_especializado self consulta) as [prompt | e];
    [| reflexivity].
  cbn [lift bind emit try_except ret app].
  destruct (generate_content (client self) prompt) as [response | e];
    [| reflexivity].
  cbn [lift bind emit try_except ret app].
  destruct (text response) as [t | e]; [reflexivity |].
  cbn [lift bind emit try_except ret app].
  destruct (exc_value_error e); reflexivity.
Qed.

(** [processar_consulta] always returns, and what it returns is the success
    payload or an error payload with one of its three messages. *)
Lemma processar_consulta_formas self consulta :
  exists r,
    desfecho (processar_consulta self consulta) = Ok r
    /\ ((exists analise, r = resultado_sucesso self consulta analise)
        \/ (exists mensagem detalhes,
              r = payload_erro mensagem detalhes
              /\ In mensagem [MSG_BLOQUEADA; MSG_EXTRACAO; MSG_INTERNO])).
Proof.
  rewrite processar_consulta_casos. unfold processar_casos, desfecho.
  destruct (_gerar_prompt_especializado self consulta) as [prompt | e].
  2:{ eexists. split; [reflexivity |]. right. eexists. eexists.
      split; [reflexivity | cbn; tauto]. }
  destruct (generate_content (client self) prompt) as [response | e].
  2:{ eexists. split; [reflexivity |]. right. eexists. eexists.
      split; [reflexivity | cbn; tauto]. }
  destruct (text response) as [t | e].
  - eexists. split; [reflexivity |]. left. eexists. reflexivity.
  - destruct (exc_value_error e);
      (eexists; split; [reflexivity |]; right; eexists; eexists;
       split; [reflexivity | cbn; tauto]).
Qed.

Lemma processar_consulta_retorna self consulta :
  exists r, desfecho (processar_consulta self consulta) = Ok r
            /\ (payload_sucesso r \/ payload_de_erro r).
Proof.
  destruct (processar_consulta_formas self consulta) as (r & Hr & H).
  exists r. split; [exact Hr |].
  destruct H as [(t & ->) | (m & det & -> & _)].
  - left. apply resultado_sucesso_payload.
  - right. exists m, det. reflexivity.
Qed.

(** At most one call goes to the external model, with the rendered prompt. *)
Lemma processar_consulta_chamadas self consulta :
  chamadas (eventos (processar_consulta self consulta))
  = match _gerar_prompt_especializado self consulta with
    | Ok prompt => [prompt]
    | Raise _ => []
    end.
Proof.
  rewrite processar_consulta_casos. unfold processar_casos, eventos.
  destruct (_gerar_prompt_especializado self consulta) as [prompt | e];
    [| reflexivity].
  destruct (generate_content (client self) prompt) as [response | e];
    [| reflexivity].
  destruct (text response) as [t | e]; [reflexivity |].
  destruct (exc_value_error e); reflexivity.
Qed.

Lemma analisar_aposta_nao_inicializado agora request :
  analisar_aposta None agora request
  = ([], Ok (payload_erro MSG_NAO_INICIALIZADO DET_NAO_INICIALIZADO, 500)).
Proof. reflexivity. Qed.

Lemma analisar_aposta_excecao_json analista agora classe mensagem :
  analisar_aposta (Some analista) agora (CorpoRecusado classe mensagem)
  = rota_excecao (Excecao classe false mensagem).
Proof. reflexivity. Qed.

Lemma analisar_aposta_excecao_validacao analista agora dados e :
  validar_contexto_consulta agora dados = Raise e ->
  analisar_aposta (Some analista) agora (CorpoJson dados) = rota_excecao e.
Proof.
  intros H. unfold analisar_aposta, rota_excecao, get_json.
  cbn [lift bind]. rewrite H. cbn [lift bind try_except app].
  destruct (exc_value_error e); reflexivity.
Qed.

Lemma analisar_aposta_validada analista agora dados consulta :
  validar_contexto_consulta agora dados = Ok consulta ->
  exists r,
    desfecho (processar_consulta analista consulta) = Ok r
    /\ analisar_aposta (Some analista) agora (CorpoJson dados)
       = (eventos (processar_consulta analista consulta), Ok (r, 200)).
Proof.
  intros H. destruct (processar_consulta_retorna analista consulta) as (r & Hr & _).
  exists r. split; [exact Hr |].
  unfold analisar_aposta, get_json. cbn [lift bind]. rewrite H. cbn [lift bind].
  unfold desfecho, eventos in *.
  destruct (processar_consulta analista consulta) as [l x]. cbn [fst snd] in *.
  subst x. cbn [bind ret try_except app]. rewrite !app_nil_r. reflexivity.
Qed.

(** A body that is not a JSON object is an unexpected failure: 500. *)
Lemma analisar_aposta_corpo_nao_dict analista agora dados :
  (forall d, dados <> PDict d) ->
  desfecho (analisar_aposta (Some analista) agora (CorpoJson dados))
  = Ok (payload_erro MSG_SERVIDOR (exc_str (no_attribute dados "get")), 500).
Proof.
  intros H.
  rewrite (analisar_aposta_excecao_validacao analista agora dados _
             (validar_contexto_consulta_nao_dict agora dados H)).
  reflexivity.
Qed.

(** The route after a [ValueError] of the validator. *)
Lemma analisar_aposta_ValueError analista agora dados msg :
  validar_contexto_consulta agora dados = Raise (ValueError msg) ->
  desfecho (analisar_aposta (Some analista) agora (CorpoJson dados))
  = Ok (payload_erro MSG_INVALIDOS msg, 400).
Proof.
  intros H. rewrite (analisar_aposta_excecao_validacao analista agora dados _ H).
  reflexivity.
Qed.

(** A required field that is not given makes the validator raise. *)
Lemma validar_campo_obrigatorio agora d k :
  In k ["liga"; "time_casa"; "time_fora"] -> presente d k = false ->
  exists msg,
    In msg MENSAGENS_OBRIGATORIO
    /\ validar_contexto_consulta agora (PDict d) = Raise (ValueError msg).
Proof.
  intros Hk Hp. rewrite validar_contexto_consulta_dict. unfold validar_dict.
  cbn [In] in Hk. unfold MENSAGENS_OBRIGATORIO.
  destruct (presente d "liga") eqn:E1; cbn [negb];
    [| eexists; split; [| reflexivity]; cbn; tauto].
  destruct (presente d "time_casa") eqn:E2; cbn [negb];
    [| eexists; split; [| reflexivity]; cbn; tauto].
  destruct (presente d "time_fora") eqn:E3; cbn [negb];
    [| eexists; split; [| reflexivity]; cbn; tauto].
  exfalso. destruct Hk as [<- | [<- | [<- | []]]]; congruence.
Qed.

(** The constructor gives every analyst the program's knowledge base. *)
Lemma AnalistaQuantitativoXG_init_base genai chave analista :
  desfecho (AnalistaQuantitativoXG_init genai chave) = Ok analista ->
  base_conhecimento analista = _carregar_base_conhecimento.
Proof.
  unfold AnalistaQuantitativoXG_init, desfecho.
  destruct (configure genai chave) as [[] | e]; cbn; [| discriminate].
  destruct (GenerativeModel genai _ _ _ _) as [c | e]; cbn; [| discriminate].
  intros H. injection H as <-. reflexivity.
Qed.

(** The messages of the error payloads are pairwise distinct. *)
Lemma mensagens_distintas :
  NoDup [MSG_BLOQUEADA; MSG_EXTRACAO; MSG_INTERNO; MSG_INVALIDOS; MSG_SERVIDOR;
         MSG_NAO_INICIALIZADO].
Proof.
  repeat constructor; cbn [In]; intros H;
    repeat match goal with
           | H : _ \/ _ |- _ => destruct H as [H | H]
           | H : False |- _ => destruct H
           | H : @eq string _ _ |- _ => discriminate H
           end.
Qed.

(** ** The odds text and the prompt of a validated Query *)

Lemma membros_r_itens (d : pydict) (campos : list (string * string)) :
  forall itens,
    membros_r d campos = Ok itens ->
    Forall2 (fun c item => fst item = snd c /\ membro_r d (fst c) = Ok (snd item))
      campos itens.
Proof.
  induction campos as [| [k nome] campos IH]; intros itens H; cbn [membros_r] in H.
  - injection H as <-. constructor.
  - destruct (membro_r d k) as [v | e] eqn:Ev; cbn [rbind] in H; [| discriminate H].
    destruct (membros_r d campos) as [resto | e]; cbn [rbind] in H; [| discriminate H].
    injection H as <-. constructor; [split; [reflexivity | exact Ev] |].
    apply IH. reflexivity.
Qed.

Lemma grupo_r_itens (d : pydict) (campos : list (string * string)) (g : pyval) :
  grupo_r d campos = Ok g ->
  if grupo_presente d campos then
    exists itens,
      g = PDict itens
      /\ Forall2 (fun c item => fst item = snd c /\ membro_r d (fst c) = Ok (snd item))
           campos itens
  else g = PNone.
Proof.
  unfold grupo_r, grupo_presente.
  destruct (existsb (fun c => presente d (fst c)) campos).
  - destruct (membros_r d campos) as [itens | e] eqn:E; cbn [rbind]; intros H;
      [| discriminate H].
    injection H as <-. exists itens. split; [reflexivity |].
    apply membros_r_itens. exact E.
  - intros H. injection H as <-. reflexivity.
Qed.

Ltac inverte_itens :=
  repeat match goal with
         | H : Forall2 _ (_ :: _) _ |- _ => inversion H; subst; clear H
         | H : Forall2 _ [] _ |- _ => inversion H; subst; clear H
         | H : _ /\ _ |- _ => destruct H
         | p : (string * pyval)%type |- _ => destruct p
         end;
  cbn [fst snd] in *; subst.

(** The odds text of a Query that the validator built, from the request. *)
Lemma formatar_odds_validado (agora : datetime) (d : pydict) (q : ConsultaAposta) :
  validar_dict agora d = Ok q -> _formatar_odds q = Ok (odds_texto_de d).
Proof.
  unfold validar_dict.
  destruct (negb (presente d "liga")); [discriminate |].
  destruct (negb (presente d "time_casa")); [discriminate |].
  destruct (negb (presente d "time_fora")); [discriminate |].
  destruct (grupo_r d CAMPOS_1X2) as [g1 | e] eqn:E1; cbn [rbind]; [| discriminate].
  destruct (grupo_r d CAMPOS_OVER_UNDER) as [g2 | e] eqn:E2; cbn [rbind];
    [| discriminate].
  destruct (grupo_r d CAMPOS_BTTS) as [g3 | e] eqn:E3; cbn [rbind]; [| discriminate].
  intros H. injection H as <-.
  apply grupo_r_itens in E1, E2, E3.
  unfold odds_texto_de, rende_membro, _formatar_odds, novo_ConsultaAposta.
  cbn [odds_1x2 odds_over_under odds_btts].
  destruct (grupo_presente d CAMPOS_1X2);
    [destruct E1 as (i1 & -> & F1) | subst g1];
    (destruct (grupo_presente d CAMPOS_OVER_UNDER);
     [destruct E2 as (i2 & -> & F2) | subst g2]);
    (destruct (grupo_presente d CAMPOS_BTTS);
     [destruct E3 as (i3 & -> & F3) | subst g3]);
    unfold CAMPOS_1X2, CAMPOS_OVER_UNDER, CAMPOS_BTTS in *;
    inverte_itens;
    repeat match goal with
           | H : membro_r _ _ = Ok _ |- _ => rewrite H; clear H
           end;
    reflexivity.
Qed.

(** The prompt of a Query that the validator built, for an analyst with the
    program's knowledge base, renders. *)
Lemma gerar_prompt_validado self agora dados q :
  base_conhecimento self = _carregar_base_conhecimento ->
  validar_contexto_consulta agora dados = Ok q ->
  exists prompt, _gerar_prompt_especializado self q = Ok prompt.
Proof.
  intros Hb H. destruct (validar_ok_dict _ _ _ H) as (d & -> & H').
  unfold _gerar_prompt_especializado, fontes.
  rewrite (formatar_odds_validado _ _ _ H'), Hb.
  eexists. reflexivity.
Qed.

(** ** The claims *)

(** C1 (amended).  When the gateway is initialised and the JSON body is an
    object in which [liga], [time_casa] or [time_fora] is missing or empty
    (or otherwise falsy), the validator raises [ValueError] and the route
    answers the error payload, error flag true, with status 400.
    Conversely every Query the validator builds holds the league, the home
    team and the away team of the body, each of them truthy: present and not
    the empty string. *)
Theorem C1_campos_obrigatorios :
  (forall analista agora d k,
     In k ["liga"; "time_casa"; "time_fora"] -> presente d k = false ->
     exists msg,
       In msg MENSAGENS_OBRIGATORIO
       /\ validar_contexto_consulta agora (PDict d) = Raise (ValueError msg)
       /\ desfecho (analisar_aposta (Some analista) agora (CorpoJson (PDict d)))
          = Ok (PDict [("erro", PBool true); ("mensagem", PStr MSG_INVALIDOS);
                       ("detalhes", PStr msg)], 400))
  /\ (forall agora dados q,
        validar_contexto_consulta agora dados = Ok q ->
        py_get dados "liga" = Ok (liga q)
        /\ py_get dados "time_casa" = Ok (time_casa q)
        /\ py_get dados "time_fora" = Ok (time_fora q)
        /\ Forall (fun v => truthy v = true /\ v <> PNone /\ v <> PStr EmptyString)
             [liga q; time_casa q; time_fora q]).
Proof.
  split.
  - intros analista agora d k Hk Hp.
    destruct (validar_campo_obrigatorio agora d k Hk Hp) as (msg & Hm & H).
    exists msg. split; [exact Hm |]. split; [exact H |].
    apply analisar_aposta_ValueError. exact H.
  - intros agora dados q H.
    destruct (validar_ok_dict _ _ _ H) as (d & -> & H').
    destruct (validar_dict_ok _ _ _ H')
      as ((P1 & P2 & P3) & (L1 & L2 & L3) & _).
    rewrite !py_get_dict, L1, L2, L3. repeat split; try reflexivity.
    repeat constructor; try assumption;
      try (apply presente_nao_vazio; assumption).
Qed.

(** C2.  When the response was withheld by the safety filter (reading
    [response.text] raises [ValueError]), [processar_consulta] returns the
    error payload, error flag true, whose message is not the one of a
    failed call (nor any other message of the program), and the route sends
    it with status 200. *)
Theorem C2_bloqueio_de_seguranca :
  forall analista agora dados consulta prompt response e,
    validar_contexto_consulta agora dados = Ok consulta ->
    _gerar_prompt_especializado analista consulta = Ok prompt ->
    generate_content (client analista) prompt = Ok response ->
    text response = Raise e ->
    exc_value_error e = true ->
    let corpo :=
      PDict [("erro", PBool true); ("mensagem", PStr MSG_BLOQUEADA);
             ("detalhes", PStr ("Feedback do Prompt: " ++ prompt_feedback response))] in
    desfecho (processar_consulta analista consulta) = Ok corpo
    /\ desfecho (analisar_aposta (Some analista) agora (CorpoJson dados))
       = Ok (corpo, 200)
    /\ MSG_BLOQUEADA <> MSG_INTERNO
    /\ MSG_BLOQUEADA <> MSG_EXTRACAO
    /\ MSG_BLOQUEADA <> MSG_SERVIDOR.
Proof.
  intros analista agora dados consulta prompt response e Hv Hp Hg Ht He corpo.
  assert (desfecho (processar_consulta analista consulta) = Ok corpo) as Hr.
  { rewrite processar_consulta_casos. unfold processar_casos.
    rewrite Hp, Hg, Ht, He. reflexivity. }
  split; [exact Hr |]. split.
  - destruct (analisar_aposta_validada analista agora dados consulta Hv)
      as (r & Hr' & ->).
    rewrite Hr in Hr'. injection Hr' as <-. reflexivity.
  - repeat split; discriminate.
Qed.

(** C3 (amended).  Every response of the route is the success payload with
    status 200, or an error payload with status 200 (the failure was
    reported by [processar_consulta]: safety block, text extraction or any
    other exception), 400 (validation failure) or 500 (gateway not
    initialised, or unexpected failure in the route); the route itself
    never raises. *)
Theorem C3_formas_da_resposta :
  forall analista_instance agora request,
  exists r,
    desfecho (analisar_aposta analista_instance agora request) = Ok r
    /\ forma_resposta r.
Proof.
  intros [analista |] agora request.
  2:{ eexists. split; [reflexivity |]. apply forma_erro_servidor. cbn. tauto. }
  assert (forall e, exists r, desfecho (rota_excecao e) = Ok r /\ forma_resposta r)
    as Hexc.
  { intros e. unfold rota_excecao. destruct (exc_value_error e).
    - eexists. split; [reflexivity | apply forma_erro_validacao].
    - eexists. split; [reflexivity |]. apply forma_erro_servidor. cbn. tauto. }
  destruct request as [dados | classe mensagem].
  - destruct (validar_contexto_consulta agora dados) as [consulta | e] eqn:Hv.
    + destruct (analisar_aposta_validada analista agora dados consulta Hv)
        as (r & Hr & ->).
      exists (r, 200). split; [reflexivity |].
      destruct (processar_consulta_formas analista consulta) as (r' & Hr' & H).
      rewrite Hr in Hr'. injection Hr' as <-.
      destruct H as [(t & ->) | (m & det & -> & Hm)].
      * apply forma_sucesso. apply resultado_sucesso_payload.
      * apply forma_erro_gateway. exact Hm.
    + rewrite (analisar_aposta_excecao_validacao analista agora dados e Hv).
      apply Hexc.
  - rewrite analisar_aposta_excecao_json. apply Hexc.
Qed.

(** C4 (amended).  A field of the request counts as given when its value
    is truthy, which is the validator's test: a missing key, [null], an empty
    string, zero and [false] are not given.  In the Query that the validator
    builds, an odds group is a dict of floats exactly when one of its
    request fields is given; then every member that is given holds
    [float()] of its field (the nearest float, not the decimal itself) and
    every other member is [None]; a group with no field given is [None],
    not a dict and not zero.  For an analyst with the program's knowledge
    base the prompt renders, and whenever the external model returns a
    text, the route answers the success payload with status 200, whose
    [odds_fornecidas] holds the three groups of the Query unchanged. *)
Theorem C4_grupos_de_odds :
  forall analista agora dados q,
    validar_contexto_consulta agora dados = Ok q ->
    exists d,
      dados = PDict d
      /\ grupo_ok d CAMPOS_1X2 (odds_1x2 q)
      /\ grupo_ok d CAMPOS_OVER_UNDER (odds_over_under q)
      /\ grupo_ok d CAMPOS_BTTS (odds_btts q)
      /\ (base_conhecimento analista = _carregar_base_conhecimento ->
          exists prompt, _gerar_prompt_especializado analista q = Ok prompt)
      /\ (forall prompt response analise,
            _gerar_prompt_especializado analista q = Ok prompt ->
            generate_content (client analista) prompt = Ok response ->
            text response = Ok analise ->
            exists itens,
              desfecho (analisar_aposta (Some analista) agora (CorpoJson dados))
              = Ok (PDict itens, 200)
              /\ map fst itens = CHAVES_SUCESSO
              /\ dict_lookup itens "odds_fornecidas"
                 = Some (PDict [("1x2", odds_1x2 q);
                                ("over_under", odds_over_under q);
                                ("btts", odds_btts q)]))
      /\ (forall corpo status,
            desfecho (analisar_aposta (Some analista) agora (CorpoJson dados))
            = Ok (corpo, status) ->
            payload_sucesso corpo ->
            exists itens,
              corpo = PDict itens
              /\ dict_lookup itens "odds_fornecidas"
                 = Some (PDict [("1x2", odds_1x2 q);
                                ("over_under", odds_over_under q);
                                ("btts", odds_btts q)])).
Proof.
  intros analista agora dados q H.
  destruct (validar_ok_dict _ _ _ H) as (d & -> & H').
  destruct (validar_dict_ok _ _ _ H') as (_ & _ & (G1 & G2 & G3) & _).
  exists d. split; [reflexivity |].
  split; [exact G1 |]. split; [exact G2 |]. split; [exact G3 |].
  destruct (analisar_aposta_validada analista agora (PDict d) q H) as (r & Hp & E).
  split; [| split].
  - intros Hb. exact (gerar_prompt_validado analista agora (PDict d) q Hb H).
  - intros prompt response analise Hr Hg Ht.
    rewrite E. rewrite processar_consulta_casos in Hp. unfold processar_casos in Hp.
    rewrite Hr, Hg, Ht in Hp. cbn [desfecho snd] in Hp. injection Hp as <-.
    eexists. split; [reflexivity |]. split; reflexivity.
  - intros corpo status Hr Hs.
    rewrite E in Hr. cbn in Hr. injection Hr as <- <-.
    destruct (processar_consulta_formas analista q) as (r' & Hp' & F).
    rewrite Hp in Hp'. injection Hp' as <-.
    destruct F as [(t & ->) | (m & det & -> & _)].
    + eexists. split; reflexivity.
    + exfalso. apply (payload_sucesso_nao_erro _ Hs). exists m, det. reflexivity.
Qed.

(** C5.  When the gateway instance is not initialised, every request gets
    status 500 with the fixed message, whatever its body; nothing is logged
    and nothing is sent to the external model.  A credential that is absent,
    empty or the placeholder leaves the instance uninitialised at start-up. *)
Theorem C5_gateway_nao_inicializado :
  (forall agora request,
     analisar_aposta None agora request
     = ([], Ok (PDict [("erro", PBool true);
                       ("mensagem", PStr "Analista não inicializado");
                       ("detalhes", PStr DET_NAO_INICIALIZADO)], 500)))
  /\ (forall genai,
        desfecho (main genai None) = Ok None
        /\ desfecho (main genai (Some EmptyString)) = Ok None
        /\ desfecho (main genai (Some "SUA_CHAVE_API_DO_GEMINI_AQUI")) = Ok None).
Proof.
  split; [reflexivity |]. intros genai. repeat split.
Qed.

(** C6.  The prompt is a function of the league, the teams, the odds groups
    and the context of the Query: two Queries that agree on these get the
    same prompt, character for character, whatever their timestamps; so the
    same input submitted again, at another time, sends the same prompt to
    the external model. *)
Theorem C6_prompt_deterministico :
  (forall self q1 q2,
     mesma_consulta q1 q2 ->
     _gerar_prompt_especializado self q1 = _gerar_prompt_especializado self q2)
  /\ (forall self agora1 agora2 dados q1 q2,
        validar_contexto_consulta agora1 dados = Ok q1 ->
        validar_contexto_consulta agora2 dados = Ok q2 ->
        chamadas (eventos (processar_consulta self q1))
        = chamadas (eventos (processar_consulta self q2))).
Proof.
  assert (forall self q1 q2,
            mesma_consulta q1 q2 ->
            _gerar_prompt_especializado self q1
            = _gerar_prompt_especializado self q2) as Hp.
  { intros self [l1 c1 f1 a1 b1 g1 x1 t1] [l2 c2 f2 a2 b2 g2 x2 t2].
    unfold mesma_consulta. cbn [liga time_casa time_fora odds_1x2 odds_over_under
                                 odds_btts contexto_adicional].
    intros (-> & -> & -> & -> & -> & -> & ->). reflexivity. }
  split; [exact Hp |].
  intros self agora1 agora2 dados q1 q2 H1 H2.
  rewrite !processar_consulta_chamadas.
  rewrite (Hp self q1 q2 (validar_mesma_consulta _ _ _ _ _ H1 H2)). reflexivity.
Qed.



(** C9 (amended).  When the gateway is initialised, the body is a JSON
    object, one of its odds fields holds a non-empty string that [float()]
    rejects, and [float()] raises nothing but [ValueError] on the odds
    fields that are given (none of them is a JSON array or object, or an
    integer beyond the range of a float), the validator raises [ValueError]
    and the route answers status 400 with the message "Dados de entrada
    inválidos", as it does for a missing required field; when the required
    fields are given, the [ValueError] is the one of the float conversion. *)
Theorem C9_odd_nao_numerica :
  forall analista agora d k s,
    In k CAMPOS_ODDS ->
    dget d k = PStr s -> s <> EmptyString -> float_of_str s = None ->
    (forall k', In k' CAMPOS_ODDS -> presente d k' = true ->
                float_so_ValueError (dget d k')) ->
    exists msg,
      validar_contexto_consulta agora (PDict d) = Raise (ValueError msg)
      /\ desfecho (analisar_aposta (Some analista) agora (CorpoJson (PDict d)))
         = Ok (PDict [("erro", PBool true);
                      ("mensagem", PStr "Dados de entrada inválidos");
                      ("detalhes", PStr msg)], 400)
      /\ ((presente d "liga" && presente d "time_casa" && presente d "time_fora")%bool
          = true ->
          exists k' s',
            In k' CAMPOS_ODDS /\ dget d k' = PStr s' /\ float_of_str s' = None
            /\ msg = "could not convert string to float: " ++ str_repr s')
      /\ (forall d' k',
            In k' ["liga"; "time_casa"; "time_fora"] -> presente d' k' = false ->
            exists msg',
              desfecho (analisar_aposta (Some analista) agora (CorpoJson (PDict d')))
              = Ok (PDict [("erro", PBool true);
                           ("mensagem", PStr "Dados de entrada inválidos");
                           ("detalhes", PStr msg')], 400)).
Proof.
  intros analista agora d k s Hk Hd Hs Hf Hconv.
  assert (presente d k = true) as Hp.
  { unfold presente. rewrite Hd. cbn. destruct (String.eqb_spec s EmptyString);
      [contradiction | reflexivity]. }
  assert (exists msg,
            validar_dict agora d = Raise (ValueError msg)
            /\ ((presente d "liga" && presente d "time_casa"
                 && presente d "time_fora")%bool = true ->
                exists k' s',
                  In k' CAMPOS_ODDS /\ dget d k' = PStr s' /\ float_of_str s' = None
                  /\ msg = "could not convert string to float: " ++ str_repr s'))
    as (msg & Hv & Hmsg).
  { destruct (validar_dict agora d) as [q | e] eqn:E.
    - exfalso. destruct (validar_dict_ok_presente _ _ _ E k Hk Hp) as (x & Hx).
      rewrite Hd in Hx. cbn in Hx. rewrite Hf in Hx. discriminate Hx.
    - destruct (validar_dict_raise _ _ _ E)
        as [(msg & -> & Hr) | (Hr & k' & Hk' & Hp' & Hf')].
      + exists msg. split; [reflexivity |]. intros Ht. congruence.
      + destruct (Hconv k' Hk' Hp' e Hf') as (msg & ->).
        exists msg. split; [reflexivity |]. intros _.
        destruct (py_float_ValueError _ _ Hf') as (s' & Hs' & Hn & Hm).
        exists k', s'. repeat split; assumption. }
  exists msg. rewrite validar_contexto_consulta_dict.
  split; [exact Hv |]. split.
  - apply analisar_aposta_ValueError. rewrite validar_contexto_consulta_dict.
    exact Hv.
  - split; [exact Hmsg |].
    intros d' k' Hk' Hp'.
    destruct (validar_campo_obrigatorio agora d' k' Hk' Hp') as (msg' & _ & H).
    exists msg'. apply analisar_aposta_ValueError. exact H.
Qed.

(** C10.  In every Query that the validator returns, an odds group that is
    not [None] is a dict with at least one member that holds a float: the
    validator builds no group all of whose members are [None]. *)
Theorem C10_grupo_com_membro :
  forall agora dados q,
    validar_contexto_consulta agora dados = Ok q ->
    forall g,
      In g [odds_1x2 q; odds_over_under q; odds_btts q] ->
      g <> PNone ->
      exists itens nome x, g = PDict itens /\ In (nome, PFloat x) itens.
Proof.
  intros agora dados q H g Hg Hn.
  destruct (validar_ok_dict _ _ _ H) as (d & -> & H').
  destruct (validar_dict_ok _ _ _ H') as (_ & _ & (G1 & G2 & G3) & _).
  cbn [In] in Hg. destruct Hg as [<- | [<- | [<- | []]]].
  - exact (grupo_ok_membro _ _ _ G1 Hn).
  - exact (grupo_ok_membro _ _ _ G2 Hn).
  - exact (grupo_ok_membro _ _ _ G3 Hn).
Qed.

(** ** Further properties of the validator *)

Lemma presente_ext (d1 d2 : pydict) (k : string) :
  dget d1 k = dget d2 k -> presente d1 k = presente d2 k.
Proof. unfold presente. intros ->. reflexivity. Qed.

Lemma membro_r_ext (d1 d2 : pydict) (k : string) :
  dget d1 k = dget d2 k -> membro_r d1 k = membro_r d2 k.
Proof. unfold membro_r, presente. intros ->. reflexivity. Qed.

Lemma grupo_r_ext (d1 d2 : pydict) (campos : list (string * string)) :
  (forall k, In k (map fst campos) -> dget d1 k = dget d2 k) ->
  grupo_r d1 campos = grupo_r d2 campos.
Proof.
  intros H. unfold grupo_r.
  assert (membros_r d1 campos = membros_r d2 campos) as ->.
  { induction campos as [| [k nome] campos IH]; [reflexivity |].
    cbn [membros_r]. rewrite (membro_r_ext d1 d2 k) by (apply H; left; reflexivity).
    rewrite IH by (intros k' Hk'; apply H; right; exact Hk'). reflexivity. }
  assert (existsb (fun c => presente d1 (fst c)) campos
          = existsb (fun c => presente d2 (fst c)) campos) as ->.
  { induction campos as [| [k nome] campos IH]; [reflexivity |].
    cbn [existsb fst]. rewrite (presente_ext d1 d2 k) by (apply H; left; reflexivity).
    rewrite IH by (intros k' Hk'; apply H; right; exact Hk'). reflexivity. }
  reflexivity.
Qed.

(** X1.  On a JSON object the validator reports the first required field
    that is not given, in the order league, home team, away team, whatever
    the other fields hold: a missing required field is reported before any
    odds field is read. *)
Theorem X1_ordem_dos_obrigatorios :
  forall agora d,
    (presente d "liga" = false ->
     validar_contexto_consulta agora (PDict d)
     = Raise (ValueError "Liga/Campeonato é obrigatório"))
    /\ (presente d "liga" = true -> presente d "time_casa" = false ->
        validar_contexto_consulta agora (PDict d)
        = Raise (ValueError "Time da casa é obrigatório"))
    /\ (presente d "liga" = true -> presente d "time_casa" = true ->
        presente d "time_fora" = false ->
        validar_contexto_consulta agora (PDict d)
        = Raise (ValueError "Time visitante é obrigatório")).
Proof.
  intros agora d. rewrite validar_contexto_consulta_dict. unfold validar_dict.
  repeat split.
  - intros ->. reflexivity.
  - intros -> ->. reflexivity.
  - intros -> -> ->. reflexivity.
Qed.

(** X2.  The validator reads eleven fields of the body and nothing else:
    two JSON objects that agree on them, in whatever order and with whatever
    other keys, give the same Query or the same exception. *)
Theorem X2_validador_le_onze_campos :
  forall agora d1 d2,
    (forall k, In k CAMPOS_LIDOS -> dget d1 k = dget d2 k) ->
    validar_contexto_consulta agora (PDict d1)
    = validar_contexto_consulta agora (PDict d2).
Proof.
  intros agora d1 d2 H. rewrite !validar_contexto_consulta_dict. unfold validar_dict.
  assert (forall k, In k CAMPOS_LIDOS -> presente d1 k = presente d2 k) as Hp
    by (intros k Hk; apply presente_ext, H, Hk).
  assert (forall campos,
            incl (map fst campos) CAMPOS_LIDOS ->
            grupo_r d1 campos = grupo_r d2 campos) as Hg.
  { intros campos Hi. apply grupo_r_ext. intros k Hk. apply H, Hi, Hk. }
  rewrite (Hp "liga"), (Hp "time_casa"), (Hp "time_fora") by (cbn; tauto).
  rewrite (Hg CAMPOS_1X2), (Hg CAMPOS_OVER_UNDER), (Hg CAMPOS_BTTS)
    by (intros k Hk; cbn in *; tauto).
  rewrite (H "liga"), (H "time_casa"), (H "time_fora"), (H "contexto_adicional")
    by (cbn; tauto).
  reflexivity.
Qed.

(** ** Further properties of the odds text and of the prompt *)

(** X7.  For a Query that the validator built, the odds text of the prompt
    has one line for each group with a field given, in the order 1X2,
    over/under, BTTS; a member whose field is given is written as its float
    and any other member as [None] (the fallback [N/A] of the formatter is
    never used, since the validator gives every group all of its keys). *)
Theorem X7_texto_das_odds :
  forall agora dados q,
    validar_contexto_consulta agora dados = Ok q ->
    exists d, dados = PDict d /\ _formatar_odds q = Ok (odds_texto_de d).
Proof.
  intros agora dados q H. destruct (validar_ok_dict _ _ _ H) as (d & -> & H').
  exists d. split; [reflexivity |]. exact (formatar_odds_validado _ _ _ H').
Qed.

(** X8.  For a Query that the validator built, the odds text is the line
    "Odds não fornecidas" exactly when none of the seven odds fields of the
    request is given. *)
Theorem X8_odds_nao_fornecidas :
  forall agora d q,
    validar_contexto_consulta agora (PDict d) = Ok q ->
    (_formatar_odds q = Ok "  • Odds não fornecidas"
     <-> forall k, In k CAMPOS_ODDS -> presente d k = false).
Proof.
  intros agora d q H. rewrite validar_contexto_consulta_dict in H.
  rewrite (formatar_odds_validado _ _ _ H).
  unfold odds_texto_de, grupo_presente, CAMPOS_1X2, CAMPOS_OVER_UNDER, CAMPOS_BTTS,
    CAMPOS_ODDS.
  cbn [existsb fst map app In].
  split.
  - intros E k Hk.
    destruct (presente d "odd_casa") eqn:P1;
      destruct (presente d "odd_empate") eqn:P2;
      destruct (presente d "odd_fora") eqn:P3;
      destruct (presente d "odd_over") eqn:P4;
      destruct (presente d "odd_under") eqn:P5;
      destruct (presente d "odd_btts_sim") eqn:P6;
      destruct (presente d "odd_btts_nao") eqn:P7;
      try (cbn in E; discriminate E).
    repeat (destruct Hk as [<- | Hk]; [assumption |]). destruct Hk.
  - intros Hn.
    rewrite (Hn "odd_casa"), (Hn "odd_empate"), (Hn "odd_fora"), (Hn "odd_over"),
      (Hn "odd_under"), (Hn "odd_btts_sim"), (Hn "odd_btts_nao") by (cbn; tauto).
    reflexivity.
Qed.



(** X6.  For an analyst with the program's knowledge base and a Query that
    the validator built, rendering the prompt does not raise, and
    [processar_consulta] sends exactly one prompt to the external model, the
    rendered one. *)
Theorem X6_uma_chamada_com_o_prompt :
  forall self agora dados q,
    base_conhecimento self = _carregar_base_conhecimento ->
    validar_contexto_consulta agora dados = Ok q ->
    exists prompt,
      _gerar_prompt_especializado self q = Ok prompt
      /\ chamadas (eventos (processar_consulta self q)) = [prompt].
Proof.
  intros self agora dados q Hb H.
  destruct (gerar_prompt_validado self agora dados q Hb H) as (prompt & Hp).
  exists prompt. split; [exact Hp |].
  rewrite processar_consulta_chamadas, Hp. reflexivity.
Qed.



(** ** Further properties of the gateway and of the route *)



(** X12.  A request that is not answered with status 200 never reaches the
    external model: no prompt is sent when the gateway is not initialised,
    when [get_json] refuses the body or when the validator raises. *)
Theorem X12_sem_200_sem_chamada :
  forall analista_instance agora request,
    status_de (analisar_aposta analista_instance agora request) <> Some 200 ->
    chamadas (eventos (analisar_aposta analista_instance agora request)) = [].
Proof.
  intros [analista |] agora request H; [| reflexivity].
  destruct request as [dados | classe mensagem].
  - destruct (validar_contexto_consulta agora dados) as [consulta | e] eqn:Hv.
    + exfalso. apply H.
      destruct (analisar_aposta_validada analista agora dados consulta Hv)
        as (r & _ & ->).
      reflexivity.
    + rewrite (analisar_aposta_excecao_validacao analista agora dados e Hv).
      unfold rota_excecao. destruct (exc_value_error e); reflexivity.
  - rewrite analisar_aposta_excecao_json. reflexivity.
Qed.

(** X13.  With the gateway initialised, the body of the response is an
    error payload exactly when the handling of the request logged an error
    line: no failure is answered without a log line, and no success logs
    one. *)
Theorem X13_erro_sempre_no_log :
  forall analista agora request,
  exists l corpo status,
    analisar_aposta (Some analista) agora request = (l, Ok (corpo, status))
    /\ (payload_de_erro corpo <-> tem_log_error l = true).
Proof.
  intros analista agora request.
  assert (forall e, exists l corpo status,
            rota_excecao e = (l, Ok (corpo, status))
            /\ (payload_de_erro corpo <-> tem_log_error l = true)) as Hexc.
  { intros e. unfold rota_excecao.
    destruct (exc_value_error e);
      (eexists; eexists; eexists; split; [reflexivity |]; split;
       [reflexivity | intros _; eexists; eexists; reflexivity]). }
  destruct request as [dados | classe mensagem].
  2:{ rewrite analisar_aposta_excecao_json. apply Hexc. }
  destruct (validar_contexto_consulta agora dados) as [consulta | e] eqn:Hv.
  2:{ rewrite (analisar_aposta_excecao_validacao analista agora dados e Hv).
      apply Hexc. }
  destruct (analisar_aposta_validada analista agora dados consulta Hv)
    as (r & Hr & ->).
  exists (eventos (processar_consulta analista consulta)), r, 200.
  split; [reflexivity |].
  revert Hr. rewrite processar_consulta_casos. unfold processar_casos.
  destruct (_gerar_prompt_especializado analista consulta) as [prompt | e].
  2:{ cbn. intros H. injection H as <-.
      split; [reflexivity | intros _; eexists; eexists; reflexivity]. }
  destruct (generate_content (client analista) prompt) as [response | e].
  2:{ cbn. intros H. injection H as <-.
      split; [reflexivity | intros _; eexists; eexists; reflexivity]. }
  destruct (text response) as [t | e].
  - cbn. intros H. injection H as <-. split; [| discriminate].
    intros He. exfalso.
    exact (payload_sucesso_nao_erro _ (resultado_sucesso_payload _ _ _) He).
  - destruct (exc_value_error e); cbn; intros H; injection H as <-;
      (split; [reflexivity | intros _; eexists; eexists; reflexivity]).
Qed.


(** X3.  A success response echoes the request: its league is the league
    of the body, its match is the two teams joined by " vs ", its timestamp
    is the ISO text of the clock reading at validation (the Query is built
    without a timestamp and takes the current time), and its model is the
    name of the client followed by " (Google AI)". *)
Theorem X3_resposta_ecoa_o_pedido :
  forall analista agora d corpo status,
    desfecho (analisar_aposta (Some analista) agora (CorpoJson (PDict d)))
    = Ok (corpo, status) ->
    payload_sucesso corpo ->
    exists itens,
      corpo = PDict itens
      /\ dict_lookup itens "liga" = Some (dget d "liga")
      /\ dict_lookup itens "partida"
         = Some (PStr (py_str (dget d "time_casa") ++ " vs "
                       ++ py_str (dget d "time_fora")))
      /\ dict_lookup itens "timestamp" = Some (PStr (isoformat agora))
      /\ dict_lookup itens "modelo_usado"
         = Some (PStr (model_name (client analista) ++ " (Google AI)")).
Proof.
  intros analista agora d corpo status Hr Hs.
  destruct (validar_contexto_consulta agora (PDict d)) as [q | e] eqn:Hv.
  2:{ exfalso.
      rewrite (analisar_aposta_excecao_validacao analista agora _ e Hv) in Hr.
      unfold rota_excecao in Hr.
      destruct (exc_value_error e); cbn in Hr; injection Hr as <- <-;
        apply (payload_sucesso_nao_erro _ Hs); eexists; eexists; reflexivity. }
  destruct (analisar_aposta_validada analista agora (PDict d) q Hv) as (r & Hp & E).
  rewrite E in Hr. cbn in Hr. injection Hr as <- <-.
  destruct (processar_consulta_formas analista q) as (r' & Hp' & F).
  rewrite Hp in Hp'. injection Hp' as <-.
  destruct F as [(t & ->) | (m & det & -> & _)].
  2:{ exfalso. apply (payload_sucesso_nao_erro _ Hs). exists m, det. reflexivity. }
  rewrite validar_contexto_consulta_dict in Hv.
  destruct (validar_dict_ok _ _ _ Hv) as (_ & (L1 & L2 & L3) & _ & _ & Ht).
  eexists. split; [reflexivity |]. cbn. rewrite L1, L2, L3, Ht. repeat split.
Qed.

(** ** The constructor and the start-up *)

(** X4.  The constructor fails exactly when [genai.configure] or
    [genai.GenerativeModel] fails, and then with the exception they raised.
    An analyst that it builds holds the key it was given, the client that
    [GenerativeModel] returned for the model "gemini-1.5-pro-latest", the
    program's knowledge base, and safety settings whose thresholds are all
    [BLOCK_NONE]. *)
Theorem X4_construtor :
  forall genai chave,
    (forall analista,
       desfecho (AnalistaQuantitativoXG_init genai chave) = Ok analista ->
       configure genai chave = Ok tt
       /\ GenerativeModel genai "gemini-1.5-pro-latest" system_instruction
            GENERATION_CONFIG SAFETY_SETTINGS = Ok (client analista)
       /\ api_key analista = chave
       /\ base_conhecimento analista = _carregar_base_conhecimento
       /\ generation_config analista = GENERATION_CONFIG
       /\ safety_settings analista = SAFETY_SETTINGS
       /\ exists l, SAFETY_SETTINGS = PList l
                    /\ Forall (fun s => py_get s "threshold" = Ok (PStr "BLOCK_NONE")) l)
    /\ (forall e,
          desfecho (AnalistaQuantitativoXG_init genai chave) = Raise e ->
          configure genai chave = Raise e
          \/ (configure genai chave = Ok tt
              /\ GenerativeModel genai "gemini-1.5-pro-latest" system_instruction
                   GENERATION_CONFIG SAFETY_SETTINGS = Raise e)).
Proof.
  intros genai chave.
  assert (AnalistaQuantitativoXG_init genai chave
          = match configure genai chave with
            | Raise e =>
                ([Stdout ("Erro ao configurar a API do Gemini: " ++ exc_str e)], Raise e)
            | Ok _ =>
                match GenerativeModel genai "gemini-1.5-pro-latest" system_instruction
                        GENERATION_CONFIG SAFETY_SETTINGS with
                | Raise e => ([], Raise e)
                | Ok c =>
                    ([], Ok {| api_key := chave;
                               generation_config := GENERATION_CONFIG;
                               safety_settings := SAFETY_SETTINGS;
                               client := c;
                               base_conhecimento := _carregar_base_conhecimento |})
                end
            end) as ->.
  { unfold AnalistaQuantitativoXG_init, GENERATION_CONFIG, SAFETY_SETTINGS.
    destruct (configure genai chave) as [[] | e0]; [| reflexivity].
    cbn [lift try_except bind].
    match goal with
    | |- context [GenerativeModel ?g ?n ?s ?c ?t] =>
        destruct (GenerativeModel g n s c t) as [c0 | e1]; reflexivity
    end. }
  unfold desfecho.
  destruct (configure genai chave) as [[] | e0]; cbn [snd].
  - destruct (GenerativeModel genai "gemini-1.5-pro-latest" system_instruction
                GENERATION_CONFIG SAFETY_SETTINGS) as [c | e1]; cbn [snd]; split.
    + intros analista H. injection H as <-. cbn. repeat split.
      eexists. split; [reflexivity |]. repeat constructor.
    + discriminate.
    + discriminate.
    + intros e H. injection H as <-. right. split; reflexivity.
  - split; [discriminate |]. intros e H. injection H as <-. left. reflexivity.
Qed.

(** X5.  The start-up never raises.  It leaves an analyst behind exactly
    when the key is set, is not the placeholder, and the constructor
    succeeds on it, and the analyst is the one the constructor built; in
    every other case, a failure of the constructor included, the instance
    stays [None]. *)
Theorem X5_arranque :
  forall genai GOOGLE_API_KEY,
    desfecho (main genai GOOGLE_API_KEY)
    = Ok (match chave_utilizavel GOOGLE_API_KEY with
          | None => None
          | Some k =>
              match desfecho (AnalistaQuantitativoXG_init genai k) with
              | Ok analista => Some analista
              | Raise _ => None
              end
          end).
Proof.
  intros genai key. unfold main, chave_utilizavel.
  destruct key as [k |]; [| reflexivity].
  destruct (String.eqb k EmptyString || String.eqb k "SUA_CHAVE_API_DO_GEMINI_AQUI");
    [reflexivity |].
  unfold criar_analista_instance, desfecho.
  destruct (AnalistaQuantitativoXG_init genai k) as [l [a | e]]; reflexivity.
Qed.

(** X16.  From start-up to the model: when the start-up leaves an analyst
    behind, every request that the validator accepts is answered with
    status 200 after exactly one call to the external model, whose prompt is
    the rendering of the Query. *)
Theorem X16_do_arranque_ao_modelo :
  forall genai GOOGLE_API_KEY analista agora dados consulta,
    desfecho (main genai GOOGLE_API_KEY) = Ok (Some analista) ->
    validar_contexto_consulta agora dados = Ok consulta ->
    exists prompt,
      _gerar_prompt_especializado analista consulta = Ok prompt
      /\ chamadas (eventos (analisar_aposta (Some analista) agora (CorpoJson dados)))
         = [prompt]
      /\ status_de (analisar_aposta (Some analista) agora (CorpoJson dados))
         = Some 200.
Proof.
  intros genai key analista agora dados consulta Hm Hv.
  assert (base_conhecimento analista = _carregar_base_conhecimento) as Hb.
  { revert Hm. unfold main.
    destruct (match key with
              | Some k => String.eqb k EmptyString
                          || String.eqb k "SUA_CHAVE_API_DO_GEMINI_AQUI"
              | None => true
              end); [discriminate |].
    unfold criar_analista_instance.
    set (k := match key with Some k => k | None => EmptyString end).
    pose proof (AnalistaQuantitativoXG_init_base genai k) as Hi.
    unfold desfecho in *.
    destruct (AnalistaQuantitativoXG_init genai k) as [l [a | e]]; cbn.
    - intros H. injection H as <-. apply Hi. reflexivity.
    - discriminate. }
  destruct (gerar_prompt_validado analista agora dados consulta Hb Hv)
    as (prompt & Hp).
  exists prompt. split; [exact Hp |].
  destruct (analisar_aposta_validada analista agora dados consulta Hv)
    as (r & Hr & ->).
  split; [| reflexivity].
  cbn [eventos fst]. change (chamadas (eventos (processar_consulta analista consulta))
                             = [prompt]).
  rewrite processar_consulta_chamadas, Hp. reflexivity.
Qed.

End Propriedades.

(** * The properties at work on the binary64 runtime *)

#[local] Existing Instance Binary64.runtime.

(** Evaluate the two sides of an equation, not its type: the type of a
    Python value mentions the runtime, whose functions have no small normal
    form. *)
Ltac calcula :=
  lazymatch goal with
  | |- ?l = ?r =>
      let l' := eval vm_compute in l in
      let r' := eval vm_compute in r in
      change (l' = r'); reflexivity
  end.

(** ** The runtime itself *)

Example float_le_e_escreve :
  map (fun s => option_map float_repr (float_of_str s))
    ["2.10"; " 1_0.5e1 "; "1e16"; "1e-5"; "-0"; "0.30000000000000004";
     "9007199254740993"; "inf"; "abc"; "1e"; "1__0"; "3,40"]
  = [Some "2.1"; Some "105.0"; Some "1e+16"; Some "1e-05"; Some "-0.0";
     Some "0.30000000000000004"; Some "9007199254740992.0"; Some "inf";
     None; None; None; None].
Proof. vm_compute. reflexivity. Qed.

Example float_de_int_grande :
  float_of_int (2 ^ 1024) = None
  /\ option_map float_repr (float_of_int (2 ^ 53 + 1)) = Some "9007199254740992.0".
Proof. split; vm_compute; reflexivity. Qed.

Example odds_formatadas_exemplo :
  _formatar_odds (consulta_de AGORA (PDict DADOS_COM_ODDS))
  = Ok ("  • 1X2: Casa 2.1 | Empate None | Fora 3.0" ++ nl
        ++ "  • BTTS: Sim None | Não 1.85").
Proof. calcula. Qed.

Example thresholds_exemplo :
  option_map json_dumps (dict_lookup
    match _carregar_base_conhecimento with PDict d => d | _ => [] end
    "thresholds_decisao")
  = Some (linhas [
      "{";
      "  " ++ aspas ++ "ev_minimo" ++ aspas ++ ": 0.02,";
      "  " ++ aspas ++ "stake_maximo" ++ aspas ++ ": 0.02,";
      "  " ++ aspas ++ "discrepancia_xg_maxima" ++ aspas ++ ": 0.15,";
      "  " ++ aspas ++ "kelly_fraction" ++ aspas ++ ": 0.5";
      "}"]).
Proof. vm_compute. reflexivity. Qed.

(** A body that is not a JSON object, or that [get_json] refuses, is an
    unexpected failure of the route. *)
Example corpo_lista_500 :
  desfecho (analisar_aposta (Some (analista_com (cliente_que_responde "ok"))) AGORA
              (CorpoJson (PList [])))
  = Ok (payload_erro MSG_SERVIDOR "'list' object has no attribute 'get'", 500).
Proof. reflexivity. Qed.

(** ** Witnesses and counterexamples of the claims *)

(** C1, as stated, fails when the gateway is not initialised: a body without
    [liga] gets status 500, not 400. *)
Lemma C1_counterexample :
  dict_lookup DADOS_SEM_LIGA "liga" = None
  /\ status_de (analisar_aposta None AGORA (CorpoJson (PDict DADOS_SEM_LIGA)))
     = Some 500
  /\ status_de (analisar_aposta None AGORA (CorpoJson (PDict DADOS_SEM_LIGA)))
     <> Some 400.
Proof. repeat split. discriminate. Qed.

(** C1 (amended) on a body whose [liga] is the empty string. *)
Lemma C1_witness :
  presente DADOS_LIGA_VAZIA "liga" = false
  /\ exists msg,
       In msg MENSAGENS_OBRIGATORIO
       /\ validar_contexto_consulta AGORA (PDict DADOS_LIGA_VAZIA)
          = Raise (ValueError msg)
       /\ desfecho (analisar_aposta (Some (analista_com (cliente_que_responde "ok")))
                      AGORA (CorpoJson (PDict DADOS_LIGA_VAZIA)))
          = Ok (PDict [("erro", PBool true); ("mensagem", PStr MSG_INVALIDOS);
                       ("detalhes", PStr msg)], 400).
Proof.
  split; [reflexivity |].
  apply (proj1 C1_campos_obrigatorios) with (k := "liga");
    [left; reflexivity | reflexivity].
Defined.

(** C2 on the blocked client and the minimal request. *)
Lemma C2_witness :
  desfecho (analisar_aposta (Some (analista_com cliente_bloqueado)) AGORA
              (CorpoJson (PDict DADOS_MINIMOS)))
  = Ok (PDict [("erro", PBool true); ("mensagem", PStr MSG_BLOQUEADA);
               ("detalhes", PStr "Feedback do Prompt: block_reason: SAFETY")], 200).
Proof.
  refine (proj1 (proj2
    (C2_bloqueio_de_seguranca (analista_com cliente_bloqueado) AGORA
       (PDict DADOS_MINIMOS) (consulta_de AGORA (PDict DADOS_MINIMOS))
       (prompt_de (analista_com cliente_bloqueado)
          (consulta_de AGORA (PDict DADOS_MINIMOS)))
       {| text := Raise (ValueError "The `response.text` quick accessor only works when the response contains a valid `Part`.");
          prompt_feedback := "block_reason: SAFETY" |}
       (ValueError "The `response.text` quick accessor only works when the response contains a valid `Part`.")
       _ _ _ _ _))); calcula.
Defined.

(** C3, as stated, fails on a blocked response: an error payload with
    status 200. *)
Lemma C3_counterexample :
  desfecho (analisar_aposta (Some (analista_com cliente_bloqueado)) AGORA
              (CorpoJson (PDict DADOS_MINIMOS)))
  = Ok (payload_erro MSG_BLOQUEADA "Feedback do Prompt: block_reason: SAFETY", 200)
  /\ ~ forma_declarada
         (payload_erro MSG_BLOQUEADA "Feedback do Prompt: block_reason: SAFETY", 200).
Proof.
  split; [calcula |].
  intros [[(d & E & Hk) _] | [_ [H | H]]].
  - unfold payload_erro in E. injection E as <-. discriminate Hk.
  - discriminate H.
  - discriminate H.
Qed.

(** C4, as stated, fails in two ways.  A field that is present in the
    input with the value zero is not read: alone it leaves its group unset,
    and beside another field it is echoed as [None].  And the echoed number
    is [float()] of the input, not the input: 9007199254740993 comes back
    as 9007199254740992.0. *)
Lemma C4_counterexample :
  (dict_lookup DADOS_ODD_ZERO "odd_casa" = Some (PInt 0)
   /\ status_de (analisar_aposta (Some (analista_com (cliente_que_responde "análise")))
                   AGORA (CorpoJson (PDict DADOS_ODD_ZERO)))
      = Some 200
   /\ grupo_ecoado (analisar_aposta (Some (analista_com (cliente_que_responde "análise")))
                      AGORA (CorpoJson (PDict DADOS_ODD_ZERO))) "1x2"
      = Some PNone)
  /\ (dict_lookup DADOS_ODD_ZERO_E_EMPATE "odd_casa" = Some (PInt 0)
      /\ membro_ecoado (analisar_aposta
                          (Some (analista_com (cliente_que_responde "análise")))
                          AGORA (CorpoJson (PDict DADOS_ODD_ZERO_E_EMPATE)))
           "1x2" "casa"
         = Some PNone)
  /\ (dict_lookup DADOS_ODD_GRANDE "odd_casa" = Some (PStr "9007199254740993")
      /\ membro_ecoado (analisar_aposta
                          (Some (analista_com (cliente_que_responde "análise")))
                          AGORA (CorpoJson (PDict DADOS_ODD_GRANDE)))
           "1x2" "casa"
         = Some (PFloat (float_of_decimal 9007199254740992 0))
      /\ float_json (float_of_decimal 9007199254740992 0) = "9007199254740992.0").
Proof.
  split; [| split].
  - split; [reflexivity |]. split; calcula.
  - split; [reflexivity | calcula].
  - split; [reflexivity |]. split; [calcula | vm_compute; reflexivity].
Qed.

(** C4 (amended) on a request with the 1X2 and BTTS groups and no
    over/under, and a client that answers: the groups of the Query, and
    their echo in the success response. *)
Lemma C4_witness :
  (grupo_ok DADOS_COM_ODDS CAMPOS_1X2
     (odds_1x2 (consulta_de AGORA (PDict DADOS_COM_ODDS)))
   /\ grupo_ok DADOS_COM_ODDS CAMPOS_OVER_UNDER
        (odds_over_under (consulta_de AGORA (PDict DADOS_COM_ODDS)))
   /\ grupo_ok DADOS_COM_ODDS CAMPOS_BTTS
        (odds_btts (consulta_de AGORA (PDict DADOS_COM_ODDS))))
  /\ exists itens,
       desfecho (analisar_aposta (Some (analista_com (cliente_que_responde "análise")))
                   AGORA (CorpoJson (PDict DADOS_COM_ODDS)))
       = Ok (PDict itens, 200)
       /\ map fst itens = CHAVES_SUCESSO
       /\ dict_lookup itens "odds_fornecidas"
          = Some (PDict [("1x2", odds_1x2 (consulta_de AGORA (PDict DADOS_COM_ODDS)));
                         ("over_under",
                          odds_over_under (consulta_de AGORA (PDict DADOS_COM_ODDS)));
                         ("btts", odds_btts (consulta_de AGORA (PDict DADOS_COM_ODDS)))]).
Proof.
  destruct (C4_grupos_de_odds (analista_com (cliente_que_responde "análise")) AGORA
              (PDict DADOS_COM_ODDS) (consulta_de AGORA (PDict DADOS_COM_ODDS)))
    as (d & Hd & G1 & G2 & G3 & _ & Heco & _).
  - calcula.
  - injection Hd as <-. split; [repeat split; assumption |].
    apply (Heco (prompt_de (analista_com (cliente_que_responde "análise"))
                   (consulta_de AGORA (PDict DADOS_COM_ODDS)))
                {| text := Ok "análise"; prompt_feedback := EmptyString |}
                "análise").
    + calcula.
    + reflexivity.
    + reflexivity.
Defined.

(** The echo of that request, member by member, as [json.dumps] writes it. *)
Example C4_eco_exemplo :
  map (fun gn =>
         option_map json_dumps
           (membro_ecoado (analisar_aposta
                             (Some (analista_com (cliente_que_responde "análise")))
                             AGORA (CorpoJson (PDict DADOS_COM_ODDS)))
              (fst gn) (snd gn)))
    [("1x2", "casa"); ("1x2", "empate"); ("1x2", "fora"); ("btts", "sim");
     ("btts", "nao")]
  = [Some "2.1"; Some "null"; Some "3.0"; Some "null"; Some "1.85"]
  /\ grupo_ecoado (analisar_aposta
                     (Some (analista_com (cliente_que_responde "análise")))
                     AGORA (CorpoJson (PDict DADOS_COM_ODDS))) "over_under"
     = Some PNone.
Proof. split; [vm_compute; reflexivity | calcula]. Qed.

(** C6 on the same request submitted at two different times. *)
Lemma C6_witness :
  chamadas (eventos (processar_consulta (analista_com (cliente_que_responde "ok"))
                       (consulta_de AGORA (PDict DADOS_COM_ODDS))))
  = chamadas (eventos (processar_consulta (analista_com (cliente_que_responde "ok"))
                         (consulta_de MAIS_TARDE (PDict DADOS_COM_ODDS)))).
Proof.
  apply (proj2 C6_prompt_deterministico (analista_com (cliente_que_responde "ok"))
           AGORA MAIS_TARDE (PDict DADOS_COM_ODDS));
    calcula.
Defined.



(** C9, as stated, fails in two ways.  With the gateway not initialised the
    request gets status 500.  With the gateway initialised, an odds field
    that holds a JSON array makes [float()] raise [TypeError] before the
    malformed string is reached, and the route answers 500. *)
Lemma C9_counterexample :
  float_of_str "abc" = None
  /\ status_de (analisar_aposta None AGORA
                  (CorpoJson (PDict DADOS_ODD_INVALIDA)))
     = Some 500
  /\ desfecho (analisar_aposta (Some (analista_com (cliente_que_responde "ok"))) AGORA
                 (CorpoJson (PDict DADOS_ODD_LISTA)))
     = Ok (payload_erro MSG_SERVIDOR
             "float() argument must be a string or a real number, not 'list'", 500).
Proof. repeat split. Qed.

(** C9 (amended) on [odd_casa = "abc"]. *)
Lemma C9_witness :
  exists msg,
    validar_contexto_consulta AGORA
      (PDict DADOS_ODD_INVALIDA)
    = Raise (ValueError msg)
    /\ desfecho (analisar_aposta (Some (analista_com (cliente_que_responde "ok")))
                   AGORA
                   (CorpoJson (PDict DADOS_ODD_INVALIDA)))
       = Ok (PDict [("erro", PBool true);
                    ("mensagem", PStr "Dados de entrada inválidos");
                    ("detalhes", PStr msg)], 400).
Proof.
  destruct (C9_odd_nao_numerica (analista_com (cliente_que_responde "ok")) AGORA
              DADOS_ODD_INVALIDA "odd_casa" "abc")
    as (msg & Hv & Hr & _).
  - left. reflexivity.
  - reflexivity.
  - discriminate.
  - reflexivity.
  - intros k' Hk' Hp'. cbn in Hk'.
    repeat (destruct Hk' as [<- | Hk']; [try discriminate Hp' |]);
      [apply float_so_ValueError_str | destruct Hk'].
  - exists msg. split; assumption.
Defined.

(** C10 on the 1X2 group of a request that gives two of its three odds. *)
Lemma C10_witness :
  exists itens nome x,
    odds_1x2 (consulta_de AGORA (PDict DADOS_COM_ODDS)) = PDict itens
    /\ In (nome, PFloat x) itens.
Proof.
  apply (C10_grupo_com_membro AGORA (PDict DADOS_COM_ODDS)
           (consulta_de AGORA (PDict DADOS_COM_ODDS))).
  - calcula.
  - left. reflexivity.
  - let v := eval vm_compute in (odds_1x2 (consulta_de AGORA (PDict DADOS_COM_ODDS))) in
    change (v <> PNone).
    discriminate.
Defined.

(** ** Witnesses of the further properties *)

(** X1 on a body without league and home team, and with a malformed odd. *)
Lemma X1_witness :
  presente DADOS_TUDO_ERRADO "liga" = false
  /\ validar_contexto_consulta AGORA (PDict DADOS_TUDO_ERRADO)
     = Raise (ValueError "Liga/Campeonato é obrigatório").
Proof.
  split; [reflexivity |].
  apply (proj1 (X1_ordem_dos_obrigatorios AGORA DADOS_TUDO_ERRADO)). reflexivity.
Defined.

(** X2 on a request, and the same fields in another order with one more key. *)
Lemma X2_witness :
  validar_contexto_consulta AGORA (PDict DADOS_COM_ODDS)
  = validar_contexto_consulta AGORA (PDict DADOS_COM_ODDS_E_MAIS).
Proof.
  apply X2_validador_le_onze_campos.
  intros k Hk. cbn in Hk.
  repeat (destruct Hk as [<- | Hk]; [reflexivity |]). destruct Hk.
Defined.

(** X3 on a request with odds and a client that answers. *)
Lemma X3_witness :
  exists itens,
    resultado_sucesso (analista_com (cliente_que_responde "análise"))
      (consulta_de AGORA (PDict DADOS_COM_ODDS)) "análise" = PDict itens
    /\ dict_lookup itens "liga" = Some (dget DADOS_COM_ODDS "liga")
    /\ dict_lookup itens "partida"
       = Some (PStr (py_str (dget DADOS_COM_ODDS "time_casa") ++ " vs "
                     ++ py_str (dget DADOS_COM_ODDS "time_fora")))
    /\ dict_lookup itens "timestamp" = Some (PStr (isoformat AGORA))
    /\ dict_lookup itens "modelo_usado"
       = Some (PStr (model_name (client (analista_com (cliente_que_responde "análise")))
                     ++ " (Google AI)")).
Proof.
  apply (X3_resposta_ecoa_o_pedido (analista_com (cliente_que_responde "análise"))
           AGORA DADOS_COM_ODDS _ 200).
  - calcula.
  - apply resultado_sucesso_payload.
Defined.

(** X4 on an SDK that accepts the key. *)
Lemma X4_witness :
  api_key (analista_de (genai_que_responde "ok") "chave-de-teste") = "chave-de-teste"
  /\ base_conhecimento (analista_de (genai_que_responde "ok") "chave-de-teste")
     = _carregar_base_conhecimento
  /\ client (analista_de (genai_que_responde "ok") "chave-de-teste")
     = cliente_que_responde "ok".
Proof.
  destruct (proj1 (X4_construtor (genai_que_responde "ok") "chave-de-teste")
              (analista_de (genai_que_responde "ok") "chave-de-teste") eq_refl)
    as (_ & _ & Hk & Hb & _).
  split; [exact Hk |]. split; [exact Hb |]. reflexivity.
Defined.

(** X6 on a request with odds. *)
Lemma X6_witness :
  exists prompt,
    _gerar_prompt_especializado (analista_com (cliente_que_responde "ok"))
      (consulta_de AGORA (PDict DADOS_COM_ODDS)) = Ok prompt
    /\ chamadas (eventos (processar_consulta (analista_com (cliente_que_responde "ok"))
                            (consulta_de AGORA (PDict DADOS_COM_ODDS))))
       = [prompt].
Proof.
  apply (X6_uma_chamada_com_o_prompt (analista_com (cliente_que_responde "ok"))
           AGORA (PDict DADOS_COM_ODDS)).
  - reflexivity.
  - calcula.
Defined.

(** X7 on a request with the 1X2 and BTTS groups. *)
Lemma X7_witness :
  exists d,
    PDict DADOS_COM_ODDS = PDict d
    /\ _formatar_odds (consulta_de AGORA (PDict DADOS_COM_ODDS))
       = Ok (odds_texto_de d).
Proof.
  apply (X7_texto_das_odds AGORA (PDict DADOS_COM_ODDS)). calcula.
Defined.

(** X8 on the minimal request. *)
Lemma X8_witness :
  _formatar_odds (consulta_de AGORA (PDict DADOS_MINIMOS))
  = Ok "  • Odds não fornecidas"
  <-> forall k, In k CAMPOS_ODDS -> presente DADOS_MINIMOS k = false.
Proof.
  apply (X8_odds_nao_fornecidas AGORA DADOS_MINIMOS). calcula.
Defined.



(** X12 on a request without league. *)
Lemma X12_witness :
  chamadas (eventos (analisar_aposta (Some (analista_com (cliente_que_responde "ok")))
                       AGORA (CorpoJson (PDict DADOS_SEM_LIGA))))
  = [].
Proof.
  apply X12_sem_200_sem_chamada.
  let v := eval vm_compute in
    (status_de (analisar_aposta (Some (analista_com (cliente_que_responde "ok")))
                  AGORA (CorpoJson (PDict DADOS_SEM_LIGA)))) in
  change (v <> Some 200).
  discriminate.
Defined.



(** X16 on an SDK that accepts the key and the minimal request. *)
Lemma X16_witness :
  exists prompt,
    _gerar_prompt_especializado (analista_de (genai_que_responde "análise") "chave-de-teste")
      (consulta_de AGORA (PDict DADOS_MINIMOS)) = Ok prompt
    /\ chamadas (eventos (analisar_aposta
                            (Some (analista_de (genai_que_responde "análise")
                                     "chave-de-teste"))
                            AGORA (CorpoJson (PDict DADOS_MINIMOS))))
       = [prompt]
    /\ status_de (analisar_aposta
                    (Some (analista_de (genai_que_responde "análise") "chave-de-teste"))
                    AGORA (CorpoJson (PDict DADOS_MINIMOS)))
       = Some 200.
Proof.
  apply (X16_do_arranque_ao_modelo (genai_que_responde "análise")
           (Some "chave-de-teste")
           (analista_de (genai_que_responde "análise") "chave-de-teste")
           AGORA (PDict DADOS_MINIMOS) (consulta_de AGORA (PDict DADOS_MINIMOS)));
    calcula.
Defined.

(** The start-up with a key that [configure] rejects leaves no analyst. *)
Example arranque_com_chave_recusada :
  main genai_chave_recusada (Some "chave-errada")
  = ([Stdout "Erro ao configurar a API do Gemini: Invalid API key";
      Stdout "❌ FALHA na inicialização: Invalid API key"],
     Ok None).
Proof. calcula. Qed.
